(** * The AI post-generation pipeline of the LinkedIn backend

    Shallow embedding of [src/services/openaiService.ts]
    ([generateChatCompletion]), of the generation pipeline of
    [src/services/linkedinService.ts] ([generateHooksFromTopic],
    [refinePostVoice], [refinePostLogic], [refineSingleSection],
    [generatePostFromHook], [regenerateSection], [recommendIntention]), of
    its publishing path ([getLinkedInUserUrn], [publishToLinkedIn]) and of
    the LinkedIn controller's handlers [generateHooks], [generatePost],
    [recommendContentIntention], [regeneratePostSection] and
    [publishLinkedInPost], with the HTTP client and the database as oracles.

    JavaScript strings are modelled as byte strings holding their UTF-8
    encoding; JSON numbers are exact decimals [m * 10^e]. *)

From Stdlib Require Import String Ascii List ZArith QArith Bool Lia.
Import ListNotations.
Open Scope nat_scope.
Open Scope list_scope.
Open Scope string_scope.
Set Warnings "-register-all".

(** ** JavaScript values *)

(** The values [JSON.parse] produces and request bodies carry. *)
Inductive jsval : Type :=
| JNull
| JBool (b : bool)
| JNum (m : Z) (e : Z)            (** the number [m * 10^e] *)
| JStr (s : string)
| JArr (items : list jsval)
| JObj (props : list (string * jsval)).  (** own properties, in order *)

(** Truthiness of a value; [None] is [undefined]. *)
Definition truthy (v : option jsval) : bool :=
  match v with
  | None | Some JNull => false
  | Some (JBool b) => b
  | Some (JNum m _) => negb (Z.eqb m 0)
  | Some (JStr s) => negb (String.eqb s "")
  | Some (JArr _) | Some (JObj _) => true
  end.

(** Completions either return normally or throw an [Error] carrying a
    message. *)
Inductive result (A : Type) : Type :=
| Ok (a : A)
| Err (msg : string).
Arguments Ok {A} a.
Arguments Err {A} msg.

Fixpoint assoc_last (k : string) (props : list (string * jsval)) : option jsval :=
  match props with
  | [] => None
  | (k', v) :: rest =>
      match assoc_last k rest with
      | Some w => Some w
      | None => if String.eqb k k' then Some v else None
      end
  end.

(** Property read [v.k] for the keys the pipeline reads ([intro],
    [main_insight], [supporting_detail], [shift_takeaway], [cta],
    [design_idea], and the request-body fields): none of them is an
    inherited property of objects, arrays, strings, numbers or booleans, so
    only own properties are found. Reading a property of [null] throws a
    [TypeError]. *)
Definition get_prop (v : jsval) (k : string) : result (option jsval) :=
  match v with
  | JNull => Err ("Cannot read properties of null (reading '" ++ k ++ "')")
  | JObj props => Ok (assoc_last k props)
  | _ => Ok None
  end.

(** ** Strings *)

Definition char_of (n : nat) : ascii := ascii_of_nat n.

(** UTF-8 encodings of the code points [String.prototype.trim] removes:
    the ASCII white space and line terminators, then NBSP, the byte order
    mark, U+1680, U+2000..U+200A, the line and paragraph separators,
    U+202F, U+205F and U+3000. *)
Definition js_ws_seqs : list (list nat) :=
  [[9]; [10]; [11]; [12]; [13]; [32];
   [194; 160];
   [239; 187; 191];
   [225; 154; 128];
   [226; 128; 128]; [226; 128; 129]; [226; 128; 130]; [226; 128; 131];
   [226; 128; 132]; [226; 128; 133]; [226; 128; 134]; [226; 128; 135];
   [226; 128; 136]; [226; 128; 137]; [226; 128; 138];
   [226; 128; 168]; [226; 128; 169];
   [226; 128; 175]; [226; 129; 159]; [227; 128; 128]].

Fixpoint strip_prefix (p : list nat) (l : list ascii) : option (list ascii) :=
  match p, l with
  | [], _ => Some l
  | n :: p', c :: l' => if Nat.eqb (nat_of_ascii c) n then strip_prefix p' l' else None
  | _ :: _, [] => None
  end.

Fixpoint strip_ws_seq (seqs : list (list nat)) (l : list ascii) : option (list ascii) :=
  match seqs with
  | [] => None
  | p :: ps => match strip_prefix p l with
               | Some l' => Some l'
               | None => strip_ws_seq ps l
               end
  end.

Fixpoint trim_start_aux (fuel : nat) (seqs : list (list nat)) (l : list ascii) : list ascii :=
  match fuel with
  | O => l
  | S f => match strip_ws_seq seqs l with
           | Some l' => trim_start_aux f seqs l'
           | None => l
           end
  end.

(** [s.trim()]: leading white space is removed from the front, trailing
    white space from the front of the reversed string, matching the
    reversed byte sequences. *)
Definition trim (s : string) : string :=
  let l := list_ascii_of_string s in
  let l1 := trim_start_aux (length l) js_ws_seqs l in
  let r := trim_start_aux (length l1) (map (@rev nat) js_ws_seqs) (rev l1) in
  string_of_list_ascii (rev r).

Fixpoint concat_with (sep : string) (l : list string) : string :=
  match l with
  | [] => ""
  | [x] => x
  | x :: xs => x ++ sep ++ concat_with sep xs
  end.

Fixpoint repeat_str (s : string) (n : nat) : string :=
  match n with O => "" | S k => s ++ repeat_str s k end.

(** ** Numbers *)

Fixpoint digits_aux (fuel : nat) (n : Z) (acc : string) : string :=
  match fuel with
  | O => acc
  | S f =>
      let d := char_of (48 + Z.to_nat (Z.modulo n 10)) in
      let q := Z.div n 10 in
      if Z.eqb q 0 then String d acc else digits_aux f q (String d acc)
  end.

(** Decimal digits of a non-negative integer. *)
Definition decimal (n : Z) : string :=
  digits_aux (S (Pos.size_nat (Z.to_pos (Z.max 1 n)))) n "".

Fixpoint strip_zeros (fuel : nat) (m e : Z) : Z * Z :=
  match fuel with
  | O => (m, e)
  | S f => if Z.eqb (Z.modulo m 10) 0 then strip_zeros f (Z.div m 10) (e + 1)%Z
           else (m, e)
  end.

(** [Number::toString] (ECMAScript 6.1.6.1.20) for the exact decimal
    [m * 10^e]; rounding to the nearest double is not modelled. *)
Definition num_to_string (m e : Z) : string :=
  if Z.eqb m 0 then "0" else
  let sign := if Z.ltb m 0 then "-" else "" in
  let '(m', e') := strip_zeros (S (Pos.size_nat (Z.to_pos (Z.abs m)))) (Z.abs m) e in
  let ds := decimal m' in
  let k := Z.of_nat (String.length ds) in
  let n := (e' + k)%Z in
  sign ++
  (if andb (Z.leb k n) (Z.leb n 21) then ds ++ repeat_str "0" (Z.to_nat (n - k)%Z)
   else if andb (Z.ltb 0 n) (Z.leb n 21) then
     substring 0 (Z.to_nat n) ds ++ "." ++ substring (Z.to_nat n) (String.length ds) ds
   else if andb (Z.ltb (-6) n) (Z.leb n 0) then
     "0." ++ repeat_str "0" (Z.to_nat (- n)%Z) ++ ds
   else
     let x := (n - 1)%Z in
     let esign := if Z.leb 0 x then "+" else "-" in
     let mant := if Z.eqb k 1 then ds
                 else substring 0 1 ds ++ "." ++ substring 1 (String.length ds) ds in
     mant ++ "e" ++ esign ++ decimal (Z.abs x)).

(** ** Template literals: [`${v}`] *)

Definition quote_char : ascii := char_of 34.

Fixpoint js_to_string (v : jsval) : string :=
  match v with
  | JNull => "null"
  | JBool b => if b then "true" else "false"
  | JNum m e => num_to_string m e
  | JStr s => s
  | JArr items =>
      (* Array.prototype.join: null and undefined elements print as "" *)
      concat_with "," (map (fun x => match x with JNull => "" | _ => js_to_string x end) items)
  | JObj _ => "[object Object]"
  end.

Definition js_template (v : option jsval) : string :=
  match v with None => "undefined" | Some w => js_to_string w end.

(** [js_to_string] is the result of ToString when the conversion does not
    throw. ToString of an object calls its [toString] and then its
    [valueOf]; no value parsed from JSON is callable, so an object with an
    own [toString] key skips it, the inherited [valueOf] returns the object
    itself and the conversion throws a [TypeError]. An array converts its
    elements through [join]. *)
Fixpoint to_primitive_throws (v : jsval) : bool :=
  match v with
  | JArr items =>
      (fix any (l : list jsval) : bool :=
         match l with [] => false | x :: r => to_primitive_throws x || any r end) items
  | JObj props => existsb (fun kv => String.eqb (fst kv) "toString") props
  | _ => false
  end.

Definition to_primitive_error : string := "Cannot convert object to primitive value".

(** [`${v}`], with the [TypeError] of the conversion. *)
Definition js_template_checked (v : option jsval) : result string :=
  match v with
  | Some w => if to_primitive_throws w then Err to_primitive_error else Ok (js_to_string w)
  | None => Ok "undefined"
  end.

(** ** [JSON.stringify] *)

Definition hex_digit (n : nat) : ascii :=
  if Nat.ltb n 10 then char_of (48 + n) else char_of (87 + n).

(** QuoteJSONString (ECMAScript 25.5.2.3), byte by byte. *)
Fixpoint quote_body (l : list ascii) : string :=
  match l with
  | [] => ""
  | c :: rest =>
      let n := nat_of_ascii c in
      let esc :=
        if Nat.eqb n 8 then "\b"
        else if Nat.eqb n 9 then "\t"
        else if Nat.eqb n 10 then "\n"
        else if Nat.eqb n 12 then "\f"
        else if Nat.eqb n 13 then "\r"
        else if Nat.eqb n 34 then String "\" (String quote_char EmptyString)
        else if Nat.eqb n 92 then "\\"
        else if Nat.ltb n 32 then
          "\u00" ++ String (hex_digit (n / 16)) (String (hex_digit (n mod 16)) EmptyString)
        else String c EmptyString in
      esc ++ quote_body rest
  end.

Definition quote_json (s : string) : string :=
  String quote_char (quote_body (list_ascii_of_string s) ++ String quote_char EmptyString).

Definition newline : string := String (char_of 10) EmptyString.

(** SerializeJSONProperty with the [gap] of the [space] argument ([""] for
    [JSON.stringify(v)], two spaces for [JSON.stringify(v, null, 2)]) and
    the current [indent]. *)
Fixpoint json_ser (gap indent : string) (v : jsval) {struct v} : string :=
  let indent' := indent ++ gap in
  let open_sep := if String.eqb gap "" then "" else newline ++ indent' in
  let item_sep := if String.eqb gap "" then "," else "," ++ newline ++ indent' in
  let close_sep := if String.eqb gap "" then "" else newline ++ indent in
  match v with
  | JNull => "null"
  | JBool b => if b then "true" else "false"
  | JNum m e => num_to_string m e
  | JStr s => quote_json s
  | JArr items =>
      match items with
      | [] => "[]"
      | _ => "[" ++ open_sep ++ concat_with item_sep (map (json_ser gap indent') items)
               ++ close_sep ++ "]"
      end
  | JObj props =>
      match props with
      | [] => "{}"
      | _ => "{" ++ open_sep
               ++ concat_with item_sep
                    (map (fun kv => quote_json (fst kv) ++ ":"
                                    ++ (if String.eqb gap "" then "" else " ")
                                    ++ json_ser gap indent' (snd kv)) props)
               ++ close_sep ++ "}"
      end
  end.

Definition JSON_stringify (v : jsval) : string := json_ser "" "" v.
Definition JSON_stringify_pretty (v : jsval) : string := json_ser "  " "" v.

(** ** [JSON.parse] *)

Definition is_json_ws (c : ascii) : bool :=
  let n := nat_of_ascii c in
  orb (Nat.eqb n 32) (orb (Nat.eqb n 9) (orb (Nat.eqb n 10) (Nat.eqb n 13))).

Fixpoint skip_ws (l : list ascii) : list ascii :=
  match l with
  | c :: rest => if is_json_ws c then skip_ws rest else l
  | [] => []
  end.

Definition digit_val (c : ascii) : option nat :=
  let n := nat_of_ascii c in
  if andb (Nat.leb 48 n) (Nat.leb n 57) then Some (n - 48) else None.

Definition hex_val (c : ascii) : option Z :=
  let n := nat_of_ascii c in
  if andb (Nat.leb 48 n) (Nat.leb n 57) then Some (Z.of_nat (n - 48))
  else if andb (Nat.leb 97 n) (Nat.leb n 102) then Some (Z.of_nat (n - 87))
  else if andb (Nat.leb 65 n) (Nat.leb n 70) then Some (Z.of_nat (n - 55))
  else None.

Definition parse_hex4 (l : list ascii) : option (Z * list ascii) :=
  match l with
  | a :: b :: c :: d :: rest =>
      match hex_val a, hex_val b, hex_val c, hex_val d with
      | Some x, Some y, Some z, Some w =>
          Some ((((x * 16 + y) * 16 + z) * 16 + w)%Z, rest)
      | _, _, _, _ => None
      end
  | _ => None
  end.

Definition zchar (n : Z) : ascii := char_of (Z.to_nat n).

(** UTF-8 encoding of a code point (a lone surrogate is encoded on its own
    in three bytes). *)
Definition utf8_encode (cp : Z) : list ascii :=
  if Z.ltb cp 128 then [zchar cp]
  else if Z.ltb cp 2048 then
    [zchar (192 + cp / 64); zchar (128 + cp mod 64)]
  else if Z.ltb cp 65536 then
    [zchar (224 + cp / 4096); zchar (128 + (cp / 64) mod 64); zchar (128 + cp mod 64)]
  else
    [zchar (240 + cp / 262144); zchar (128 + (cp / 4096) mod 64);
     zchar (128 + (cp / 64) mod 64); zchar (128 + cp mod 64)].

Definition is_char (c : ascii) (n : nat) : bool := Nat.eqb (nat_of_ascii c) n.

(** The body of a JSON string after its opening quote; [acc] holds the
    bytes read so far, reversed. *)
Fixpoint parse_str_body (fuel : nat) (l acc : list ascii) : option (string * list ascii) :=
  match fuel with
  | O => None
  | S f =>
  match l with
  | [] => None
  | c :: rest =>
      if is_char c 34 then Some (string_of_list_ascii (rev acc), rest)
      else if is_char c 92 then
        match rest with
        | [] => None
        | e :: rest' =>
            let simple (n : nat) := parse_str_body f rest' (char_of n :: acc) in
            if is_char e 34 then simple 34
            else if is_char e 92 then simple 92
            else if is_char e 47 then simple 47
            else if is_char e 98 then simple 8
            else if is_char e 102 then simple 12
            else if is_char e 110 then simple 10
            else if is_char e 114 then simple 13
            else if is_char e 116 then simple 9
            else if is_char e 117 then
              match parse_hex4 rest' with
              | None => None
              | Some (hi, r) =>
                  let lone := parse_str_body f r (rev (utf8_encode hi) ++ acc)%list in
                  if andb (Z.leb 55296 hi) (Z.leb hi 56319) then
                    match r with
                    | b :: u :: r' =>
                        if andb (is_char b 92) (is_char u 117) then
                          match parse_hex4 r' with
                          | Some (lo, r'') =>
                              if andb (Z.leb 56320 lo) (Z.leb lo 57343) then
                                let cp := (65536 + (hi - 55296) * 1024 + (lo - 56320))%Z in
                                parse_str_body f r'' (rev (utf8_encode cp) ++ acc)%list
                              else lone
                          | None => lone
                          end
                        else lone
                    | _ => lone
                    end
                  else lone
              end
            else None
        end
      else if Nat.ltb (nat_of_ascii c) 32 then None
      else parse_str_body f rest (c :: acc)
  end
  end.

Fixpoint take_digits (l : list ascii) : list nat * list ascii :=
  match l with
  | c :: rest =>
      match digit_val c with
      | Some d => let '(ds, r) := take_digits rest in (d :: ds, r)
      | None => ([], l)
      end
  | [] => ([], [])
  end.

Definition digits_value (ds : list nat) : Z :=
  fold_left (fun acc d => (acc * 10 + Z.of_nat d)%Z) ds 0%Z.

(** A JSON number: [-]? int frac? exp?, as the exact decimal it denotes. *)
Definition parse_number (l : list ascii) : option (jsval * list ascii) :=
  let '(neg, l1) := match l with
                    | c :: r => if is_char c 45 then (true, r) else (false, l)
                    | [] => (false, l)
                    end in
  let int_part :=
    match l1 with
    | c :: r => if is_char c 48 then Some ([0], r)
                else match take_digits l1 with
                     | ([], _) => None
                     | (ds, r') => Some (ds, r')
                     end
    | [] => None
    end in
  match int_part with
  | None => None
  | Some (ids, l2) =>
      let frac :=
        match l2 with
        | c :: r => if is_char c 46 then
                      match take_digits r with
                      | ([], _) => None
                      | (fs, r') => Some (fs, r')
                      end
                    else Some ([], l2)
        | [] => Some ([], l2)
        end in
      match frac with
      | None => None
      | Some (fds, l3) =>
          let expo :=
            match l3 with
            | c :: r =>
                if orb (is_char c 101) (is_char c 69) then
                  let '(eneg, r1) := match r with
                                     | s :: r2 => if is_char s 45 then (true, r2)
                                                  else if is_char s 43 then (false, r2)
                                                  else (false, r)
                                     | [] => (false, r)
                                     end in
                  match take_digits r1 with
                  | ([], _) => None
                  | (eds, r') =>
                      let x := digits_value eds in
                      Some ((if eneg then - x else x)%Z, r')
                  end
                else Some (0%Z, l3)
            | [] => Some (0%Z, l3)
            end in
          match expo with
          | None => None
          | Some (x, l4) =>
              let m := digits_value (ids ++ fds)%list in
              Some (JNum (if neg then - m else m)%Z (x - Z.of_nat (length fds))%Z, l4)
          end
      end
  end.

(** Object construction keeps the first position of a repeated key and its
    last value. *)
Fixpoint obj_set (props : list (string * jsval)) (k : string) (v : jsval)
  : list (string * jsval) :=
  match props with
  | [] => [(k, v)]
  | (k', v') :: rest =>
      if String.eqb k k' then (k', v) :: rest else (k', v') :: obj_set rest k v
  end.

Fixpoint parse_value (fuel : nat) (l : list ascii) : option (jsval * list ascii) :=
  match fuel with
  | O => None
  | S f =>
  match skip_ws l with
  | [] => None
  | c :: rest =>
      if is_char c 123 then
        match skip_ws rest with
        | d :: rest' => if is_char d 125 then Some (JObj [], rest') else parse_members f (skip_ws rest) []
        | [] => None
        end
      else if is_char c 91 then
        match skip_ws rest with
        | d :: rest' => if is_char d 93 then Some (JArr [], rest') else parse_items f rest []
        | [] => None
        end
      else if is_char c 34 then
        match parse_str_body (length rest) rest [] with
        | Some (s, r) => Some (JStr s, r)
        | None => None
        end
      else if is_char c 116 then
        option_map (fun r => (JBool true, r)) (strip_prefix [114; 117; 101] rest)
      else if is_char c 102 then
        option_map (fun r => (JBool false, r)) (strip_prefix [97; 108; 115; 101] rest)
      else if is_char c 110 then
        option_map (fun r => (JNull, r)) (strip_prefix [117; 108; 108] rest)
      else parse_number (c :: rest)
  end
  end
with parse_items (fuel : nat) (l : list ascii) (acc : list jsval) : option (jsval * list ascii) :=
  match fuel with
  | O => None
  | S f =>
      match parse_value f l with
      | None => None
      | Some (v, r) =>
          match skip_ws r with
          | d :: r' => if is_char d 44 then parse_items f r' (v :: acc)
                       else if is_char d 93 then Some (JArr (rev (v :: acc)), r')
                       else None
          | [] => None
          end
      end
  end
with parse_members (fuel : nat) (l : list ascii) (acc : list (string * jsval))
  : option (jsval * list ascii) :=
  match fuel with
  | O => None
  | S f =>
      match skip_ws l with
      | q :: r0 =>
          if is_char q 34 then
            match parse_str_body (length r0) r0 [] with
            | None => None
            | Some (k, r1) =>
                match skip_ws r1 with
                | col :: r2 =>
                    if is_char col 58 then
                      match parse_value f r2 with
                      | None => None
                      | Some (v, r3) =>
                          match skip_ws r3 with
                          | d :: r4 => if is_char d 44 then parse_members f r4 (obj_set acc k v)
                                       else if is_char d 125 then Some (JObj (obj_set acc k v), r4)
                                       else None
                          | [] => None
                          end
                      end
                    else None
                | [] => None
                end
            end
          else None
      | [] => None
      end
  end.

(** [JSON.parse(s)]: a value followed only by white space, or a
    [SyntaxError] (the engine's exact message wording is not modelled).
    Every nested call consumes input, so [2 * length + 2] is enough fuel. *)
Definition JSON_parse (s : string) : result jsval :=
  let l := list_ascii_of_string s in
  match parse_value (2 * length l + 2) l with
  | Some (v, rest) =>
      match skip_ws rest with
      | [] => Ok v
      | _ => Err ("Unexpected non-whitespace character after JSON: " ++ s)
      end
  | None => Err ("Unexpected token in JSON: " ++ s)
  end.

(** Prompt texts below are written with a backquote where the source has a
    double quote; [unq] puts the double quotes back. *)
Definition unq (s : string) : string :=
  string_of_list_ascii
    (map (fun c => if is_char c 96 then quote_char else c) (list_ascii_of_string s)).

(** ** The completion client ([openaiService.ts]) *)

(** The request object passed to [openai.chat.completions.create]: a model
    and the (role, content) messages. *)
Record request : Type := mkRequest {
  rq_model : string;
  rq_messages : list (string * string)
}.

(** What the provider call does: it resolves with a response whose
    [choices[0]?.message?.content] is [content] ([None] for null or
    missing), or it rejects with an error message (network, HTTP, ...). *)
Inductive provider_outcome : Type :=
| Reply (content : option string)
| Reject (msg : string).

(** The hosted model: its answer may depend on every request sent so far
    and on the current one. *)
Definition Backend : Type := list request -> request -> provider_outcome.

(** The environment variables the client reads. *)
Record Env : Type := mkEnv {
  env_OPENAI_API_KEY : option string;
  env_OPEN_AI_MODEL : option string
}.

(** Computations that may throw, threading the log of the requests sent
    to the provider. *)
Definition M (A : Type) : Type := list request -> result A * list request.

Definition ret {A} (a : A) : M A := fun log => (Ok a, log).
Definition bind {A B} (m : M A) (k : A -> M B) : M B :=
  fun log => match m log with
             | (Ok a, log') => k a log'
             | (Err msg, log') => (Err msg, log')
             end.
Definition throw {A} (msg : string) : M A := fun log => (Err msg, log).
(** [try { m } catch (error) { h(error.message) }] *)
Definition try_catch {A} (m : M A) (h : string -> M A) : M A :=
  fun log => match m log with
             | (Err msg, log') => h msg log'
             | r => r
             end.
Definition lift {A} (r : result A) : M A := fun log => (r, log).

Notation "x <- m ;; k" := (bind m (fun x => k))
  (at level 61, m at next level, right associativity).

Definition OPEN_AI_MODEL (env : Env) : string :=
  match env_OPEN_AI_MODEL env with
  | Some s => if String.eqb s "" then "gpt-5-2025-08-07" else s
  | None => "gpt-5-2025-08-07"
  end.

Definition isOpenAIConfigured (env : Env) : bool :=
  match env_OPENAI_API_KEY env with
  | Some s => negb (String.eqb s "")
  | None => false
  end.

Definition str_truthy (s : option string) : bool :=
  match s with Some c => negb (String.eqb c "") | None => false end.

(** ** Post sections *)

(** [interface PostSections]; a field holds whatever value the code stored
    there, [None] being [undefined]. *)
Record PostSections : Type := mkPostSections {
  intro : option jsval;
  main_insight : option jsval;
  supporting_detail : option jsval;
  shift_takeaway : option jsval;
  cta : option jsval
}.

(** The sections as a JavaScript object; [JSON.stringify] leaves out the
    properties whose value is [undefined]. *)
(** Whether interpolating one of the five sections in a template literal
    throws. *)
Definition sections_to_string_throws (s : PostSections) : bool :=
  existsb (fun v => match v with Some w => to_primitive_throws w | None => false end)
    [intro s; main_insight s; supporting_detail s; shift_takeaway s; cta s].

Definition sections_to_jsval (s : PostSections) : jsval :=
  let field (k : string) (v : option jsval) :=
    match v with Some w => [(k, w)] | None => [] end in
  JObj (field "intro" (intro s) ++ field "main_insight" (main_insight s)
        ++ field "supporting_detail" (supporting_detail s)
        ++ field "shift_takeaway" (shift_takeaway s) ++ field "cta" (cta s))%list.

(** ** Object literals used as maps *)

(** Reading [obj[k]] on an object literal finds its own string properties
    first, then the members of [Object.prototype]. *)
Inductive mapval : Type :=
| MStr (s : string)
| MInherited (rendering : string).  (** its [`${...}`] rendering *)

Definition native_fn (name : string) : string :=
  "function " ++ name ++ "() { [native code] }".

Definition object_prototype_members : list (string * string) :=
  [("constructor", native_fn "Object");
   ("__defineGetter__", native_fn "__defineGetter__");
   ("__defineSetter__", native_fn "__defineSetter__");
   ("hasOwnProperty", native_fn "hasOwnProperty");
   ("__lookupGetter__", native_fn "__lookupGetter__");
   ("__lookupSetter__", native_fn "__lookupSetter__");
   ("isPrototypeOf", native_fn "isPrototypeOf");
   ("propertyIsEnumerable", native_fn "propertyIsEnumerable");
   ("toString", native_fn "toString");
   ("valueOf", native_fn "valueOf");
   ("__proto__", "[object Object]");
   ("toLocaleString", native_fn "toLocaleString")].

Fixpoint assoc_str (k : string) (l : list (string * string)) : option string :=
  match l with
  | [] => None
  | (k', v) :: rest => if String.eqb k k' then Some v else assoc_str k rest
  end.

Definition obj_lookup (own : list (string * string)) (k : string) : option mapval :=
  match assoc_str k own with
  | Some s => Some (MStr s)
  | None => option_map MInherited (assoc_str k object_prototype_members)
  end.

Definition mapval_truthy (v : option mapval) : bool :=
  match v with
  | Some (MStr s) => negb (String.eqb s "")
  | Some (MInherited _) => true
  | None => false
  end.

Definition mapval_template (v : option mapval) : string :=
  match v with
  | Some (MStr s) => s
  | Some (MInherited r) => r
  | None => "undefined"
  end.

Section Pipeline.

Variable env : Env.
Variable backend : Backend.

(** One outbound call: the request is appended to the log. *)
Definition call_api (req : request) : M provider_outcome :=
  fun log => (Ok (backend log req), log ++ [req])%list.

(** [generateChatCompletion(systemPrompt, userPrompt, model?, temperature?)];
    an omitted argument is [None] and takes its default. The temperature
    is accepted but the request the source builds has no temperature
    field. *)
Definition generateChatCompletion (systemPrompt userPrompt : string)
    (model : option string) (temperature : option Q) : M string :=
  let model := match model with Some m => m | None => OPEN_AI_MODEL env end in
  let temperature := match temperature with Some t => t | None => 0.5%Q end in
  try_catch
    (if negb (isOpenAIConfigured env) then throw "OpenAI API key not configured"
     else
       response <- call_api {| rq_model := model;
                               rq_messages := [("system", systemPrompt);
                                               ("user", userPrompt)] |} ;;
       match response with
       | Reject msg => throw msg
       | Reply content =>
           match content with
           | Some c => if str_truthy content then ret (trim c)
                       else throw "No content returned from OpenAI"
           | None => throw "No content returned from OpenAI"
           end
       end)
    (fun msg => throw ("OpenAI completion failed: " ++ msg)).

(** ** [generateHooksFromTopic] *)

Definition hooks_systemPrompt : string := unq
"You are an expert LinkedIn content creator specializing in creating engaging hooks that capture attention.

Your task is to generate 3-5 compelling hooks for LinkedIn posts based on the given topic.

Guidelines:
- Each hook should be 1-2 sentences maximum
- Hooks should be attention-grabbing and make people want to read more
- Use proven hook formulas (questions, bold statements, curiosity gaps, controversy, etc.)
- Make them relevant to the professional audience on LinkedIn
- Vary the style across different hooks

Return ONLY a JSON array of strings, nothing else. Example format:
[`Hook 1 text here`, `Hook 2 text here`, `Hook 3 text here`]".

Definition hooks_userPrompt (topic : string) (userProfile : option jsval) : string :=
  "Topic: " ++ topic ++
  (match userProfile with
   | Some p => if truthy userProfile
               then newline ++ newline ++ "User Context: " ++ JSON_stringify p else ""
   | None => ""
   end).

Definition generateHooksFromTopic (topic : string) (userProfile : option jsval)
  : M (list jsval) :=
  try_catch
    (response <- generateChatCompletion hooks_systemPrompt
                   (hooks_userPrompt topic userProfile) None None ;;
     hooks <- lift (JSON_parse response) ;;
     match hooks with
     | JArr items => ret items
     | _ => throw "Invalid response format from AI"
     end)
    (fun msg => throw ("Failed to generate hooks: " ++ msg)).

(** ** [recommendIntention] *)

Definition frameworks : list string :=
  ["Story → Insight → Shift";
   "Problem → Stakes → Solution";
   "Insight → Proof → Takeaway";
   "Identity Gap → Mirror → Reframe";
   "Contrarian Take → Explanation → New Rule";
   "Before → After → Lesson";
   "Claim → Evidence → Example";
   "List Format (3-5 punchy points)";
   "Fast Rant → Clarifier → Resolution"].

Definition default_framework : string := "Problem → Stakes → Solution".

Definition recommend_systemPrompt : string :=
"You are a LinkedIn content strategist expert. Your task is to analyze a hook and topic, then recommend the BEST content framework from the provided list.

Consider:
- Which framework naturally fits the hook's style and tone
- What would create the most engaging and valuable post
- What structure would best deliver insights on the topic
- Professional LinkedIn audience expectations

Respond with ONLY the exact framework name from the list, nothing else.".

Fixpoint numbered (i : nat) (fs : list string) : list string :=
  match fs with
  | [] => []
  | f :: rest => (decimal (Z.of_nat (i + 1)) ++ ". " ++ f) :: numbered (S i) rest
  end.

Definition recommend_userPrompt (hook topic : string) : string :=
  unq "Hook: `" ++ hook ++ unq "`" ++ newline ++
  unq "Topic: `" ++ topic ++ unq "`" ++ newline ++ newline ++
  "Available frameworks:" ++ newline ++
  concat_with newline (numbered 0 frameworks) ++ newline ++ newline ++
  "Recommend the best framework:".

(** [frameworks.includes(x)] *)
Definition includes (l : list string) (x : string) : bool :=
  existsb (String.eqb x) l.

Definition recommendIntention (hook topic : string) : M string :=
  try_catch
    (response <- generateChatCompletion recommend_systemPrompt
                   (recommend_userPrompt hook topic) None None ;;
     let intention := trim response in
     if negb (includes frameworks intention) then ret default_framework
     else ret intention)
    (fun _ => ret default_framework).

(** ** Refinement stages *)

(** [!v.k1 || !v.k2 || ...]: property reads from left to right, stopping
    at the first falsy one; reading from [null] throws. *)
Fixpoint any_missing (v : jsval) (keys : list string) : result bool :=
  match keys with
  | [] => Ok false
  | k :: rest =>
      match get_prop v k with
      | Err msg => Err msg
      | Ok p => if negb (truthy p) then Ok true else any_missing v rest
      end
  end.

Definition section_keys : list string :=
  ["intro"; "main_insight"; "supporting_detail"; "shift_takeaway"; "cta"].

(** [{ intro: v.intro, main_insight: v.main_insight, ... }] *)
Definition sections_of (v : jsval) : PostSections :=
  let rd k := match get_prop v k with Ok p => p | Err _ => None end in
  mkPostSections (rd "intro") (rd "main_insight") (rd "supporting_detail")
                 (rd "shift_takeaway") (rd "cta").

Definition REFINEMENT_MODEL : string := "gpt-5.1".

Definition voice_systemPrompt : string := unq
"You are the Voice + Originality editor. Your job is to transform raw AI-generated LinkedIn content into something that sounds authentically human.

This is your creative engine — the agent that FIXES everything large language models struggle with.

Your tasks:
- Remove clichés and predictable AI fingerprints
- Eliminate self-help-guru phrasing (no `game-changer`, `unlock your potential`, etc.)
- Tighten rhythm and phrasing - make every word earn its place
- Add metaphor, imagery, sensory language where appropriate
- Increase human tone and flow - it should feel like a real person wrote it
- Make wording punchy instead of padded

This is where the `voice` is built. It is the single most important part of the entire writing system.

IMPORTANT: Maintain the SAME structure and approximate length for each section. Do not add or remove sections.

Return ONLY a valid JSON object with the exact same structure:
{
  `intro`: `refined intro here...`,
  `main_insight`: `refined main insight here...`,
  `supporting_detail`: `refined supporting detail here...`,
  `shift_takeaway`: `refined takeaway here...`,
  `cta`: `refined cta here...`
}".

Definition voice_userPrompt (sections : PostSections) (hook topic : string) : string :=
  "Topic: " ++ topic ++ newline ++ "Hook: " ++ hook ++ newline ++ newline ++
  "Current post sections to refine:" ++ newline ++
  JSON_stringify_pretty (sections_to_jsval sections) ++ newline ++ newline ++
  "Apply voice and originality refinement to make this sound authentically human.".

(** [refinePostVoice(sections, hook, topic)] *)
Definition refinePostVoice (sections : PostSections) (hook topic : string) : M PostSections :=
  try_catch
    (response <- generateChatCompletion voice_systemPrompt
                   (voice_userPrompt sections hook topic)
                   (Some REFINEMENT_MODEL) (Some 0.7%Q) ;;
     refined <- lift (JSON_parse response) ;;
     incomplete <- lift (any_missing refined section_keys) ;;
     if incomplete then ret sections else ret (sections_of refined))
    (fun _ => ret sections).

Definition logic_systemPrompt : string := unq
"You are the Logic + Authority editor. Your job is to merge editorial intelligence with strategic clarity.

This agent ensures the post is not only original — but actually good.

Your tasks:
- Remove contradictions
- Tighten pacing
- Fix confusing jumps between ideas
- Increase skim-ability (this is a LinkedIn must-have)
- Add concrete examples, micro-stories, or light stats where needed
- Strengthen clarity and logical progression
- Ensure the post makes a sharp, readable point
- Remove repetition and filler

You are the editor and strategist in one.

IMPORTANT: Maintain the SAME structure and approximate length for each section. Do not add or remove sections.

Return ONLY a valid JSON object with the exact same structure:
{
  `intro`: `polished intro here...`,
  `main_insight`: `polished main insight here...`,
  `supporting_detail`: `polished supporting detail here...`,
  `shift_takeaway`: `polished takeaway here...`,
  `cta`: `polished cta here...`
}".

Definition logic_userPrompt (sections : PostSections) (hook topic : string) : string :=
  "Topic: " ++ topic ++ newline ++ "Hook: " ++ hook ++ newline ++ newline ++
  "Current post sections to polish:" ++ newline ++
  JSON_stringify_pretty (sections_to_jsval sections) ++ newline ++ newline ++
  "Apply logic and authority refinement to make this clear, skimmable, and impactful.".

(** [refinePostLogic(sections, hook, topic)] *)
Definition refinePostLogic (sections : PostSections) (hook topic : string) : M PostSections :=
  try_catch
    (response <- generateChatCompletion logic_systemPrompt
                   (logic_userPrompt sections hook topic)
                   (Some REFINEMENT_MODEL) (Some 0.5%Q) ;;
     polished <- lift (JSON_parse response) ;;
     incomplete <- lift (any_missing polished section_keys) ;;
     if incomplete then ret sections else ret (sections_of polished))
    (fun _ => ret sections).

Definition single_systemPrompt : string :=
"You are a combined Voice + Logic editor for LinkedIn content. Your job is to refine a single section of a post.

Voice refinement tasks:
- Remove clichés and AI fingerprints
- Eliminate self-help-guru phrasing
- Tighten rhythm and phrasing
- Add metaphor/imagery where appropriate
- Make it sound authentically human

Logic refinement tasks:
- Remove contradictions
- Fix confusing jumps
- Increase skim-ability
- Strengthen clarity
- Remove repetition and filler

The section must flow naturally with the rest of the post.

CRITICAL: Return ONLY the refined text content for this section. No JSON, no labels, no quotes around it. Just the raw refined text.".

Definition single_userPrompt (sectionKey rawContent hook topic : string)
    (currentSections : PostSections) : string :=
  "Topic: " ++ topic ++ newline ++ "Hook: " ++ hook ++ newline ++ newline ++
  "Full post context:" ++ newline ++
  "- Intro: " ++ js_template (intro currentSections) ++ newline ++
  "- Main Insight: " ++ js_template (main_insight currentSections) ++ newline ++
  "- Supporting Detail: " ++ js_template (supporting_detail currentSections) ++ newline ++
  "- Takeaway: " ++ js_template (shift_takeaway currentSections) ++ newline ++
  "- CTA: " ++ js_template (cta currentSections) ++ newline ++ newline ++
  "Section to refine: " ++ sectionKey ++ newline ++
  "Raw content: " ++ rawContent ++ newline ++ newline ++
  "Refine this section to sound human, clear, and impactful while maintaining flow with the rest of the post.".

(** [refineSingleSection(sectionKey, rawContent, hook, topic, currentSections)] *)
Definition refineSingleSection (sectionKey rawContent hook topic : string)
    (currentSections : PostSections) : M string :=
  try_catch
    (response <- generateChatCompletion single_systemPrompt
                   (single_userPrompt sectionKey rawContent hook topic currentSections)
                   (Some REFINEMENT_MODEL) (Some 0.6%Q) ;;
     ret (trim response))
    (fun _ => ret rawContent).

(** ** [generatePostFromHook] *)

Definition frameworkInstructions : list (string * string) :=
  [("Story → Insight → Shift", "Share a personal story or example, extract a key insight from it, then show how that insight shifts perspective or challenges assumptions.");
   ("Problem → Stakes → Solution", "Clearly state the problem, explain why it matters and what's at risk if ignored, then present your solution or approach.");
   ("Insight → Proof → Takeaway", "Lead with a surprising or valuable insight, back it up with evidence or examples, then provide a clear actionable takeaway.");
   ("Identity Gap → Mirror → Reframe", "Highlight a disconnect between how people see themselves and reality, hold up a mirror to show the truth, then reframe how they should think about it.");
   ("Contrarian Take → Explanation → New Rule", "Present a contrarian or unpopular opinion, explain your reasoning thoroughly, then propose a new way of thinking or rule to follow.");
   ("Before → After → Lesson", unq "Describe the `before` state or situation, show the `after` transformation or result, then share the key lesson learned.");
   ("Claim → Evidence → Example", "Make a bold claim or statement, provide supporting evidence or data, then illustrate with a concrete example.");
   ("List Format (3-5 punchy points)", "Create a numbered or bulleted list of 3-5 key points, each one concise and valuable. Make each point actionable or insightful.");
   ("Fast Rant → Clarifier → Resolution", "Start with an energetic rant about something frustrating, clarify what you really mean or the core issue, then offer a constructive resolution or path forward.")].

(** [intention && frameworkInstructions[intention] ? `...` : ''] *)
Definition frameworkGuidance (intention : option string) : string :=
  match intention with
  | Some i =>
      if andb (str_truthy intention) (mapval_truthy (obj_lookup frameworkInstructions i))
      then newline ++ newline ++ unq "IMPORTANT - Follow this content framework: `" ++ i ++ unq "`"
           ++ newline ++ "Structure your post sections using this pattern: "
           ++ mapval_template (obj_lookup frameworkInstructions i)
      else ""
  | None => ""
  end.

Definition post_systemPrompt (intention : option string) : string :=
  "You are an expert LinkedIn content creator who writes engaging, professional posts.

Your task is to create LinkedIn post content in STRUCTURED SECTIONS based on the given hook and topic." ++ frameworkGuidance intention ++ "

The hook is already provided and will be used as-is. You need to generate the remaining sections that flow naturally from the hook.

Guidelines for each section:
- intro: Introduction that connects to the hook and sets up the problem/context (1-2 sentences)
- main_insight: The core insight, main point, or key message (2-3 sentences)
- supporting_detail: Evidence, proof, example, visualization description, or quote that supports the main insight (2-3 sentences)
- shift_takeaway: A perspective shift or key takeaway for the reader (1-2 sentences)
- cta: A call-to-action or engaging question to encourage comments (1 sentence)

Overall guidelines:
- Each section should flow naturally into the next
- Use professional yet conversational tone
- Include relevant emojis sparingly (1-2 total across all sections)
- Keep total content under 1000 characters (hook adds ~200 more)
" ++ (match intention with
      | Some i => if str_truthy intention
                  then unq "- Structure the content following the `" ++ i ++ unq "` framework pattern"
                  else ""
      | None => ""
      end) ++ unq "

Guidelines for design idea:
- Suggest a simple visual or graphic idea that complements the post
- Keep it practical and easy to create

Return ONLY a JSON object with this exact format:
{
  `intro`: `Introduction/problem statement here...`,
  `main_insight`: `Core insight or main point here...`,
  `supporting_detail`: `Evidence, proof, or example here...`,
  `shift_takeaway`: `Key takeaway or perspective shift here...`,
  `cta`: `Call-to-action or question here...`,
  `design_idea`: `Description of visual/design suggestion here`
}".

Definition post_userPrompt (hook topic : string) (intention : option string)
    (userProfile : option jsval) : string :=
  unq "Hook (will be used as-is at the start of the post): `" ++ hook ++ unq "`" ++ newline ++ newline ++
  "Topic: " ++ topic ++
  (match intention with
   | Some i => if str_truthy intention then newline ++ newline ++ "Content Framework: " ++ i else ""
   | None => ""
   end) ++
  (match userProfile with
   | Some p => if truthy userProfile
               then newline ++ newline ++ "User Context: " ++ JSON_stringify p else ""
   | None => ""
   end).

Definition post_keys : list string := (section_keys ++ ["design_idea"])%list.

(** The value [generatePostFromHook] resolves with. *)
Record GeneratedPost : Type := mkGeneratedPost {
  gp_sections : PostSections;
  gp_design_idea : option jsval
}.

Definition generatePostFromHook (hook topic : string) (intention : option string)
    (userProfile : option jsval) : M GeneratedPost :=
  try_catch
    (response <- generateChatCompletion (post_systemPrompt intention)
                   (post_userPrompt hook topic intention userProfile) None None ;;
     result <- lift (JSON_parse response) ;;
     incomplete <- lift (any_missing result post_keys) ;;
     if incomplete
     then throw "Invalid response format from AI - missing required sections"
     else
       let rawSections := sections_of result in
       voiceRefined <- refinePostVoice rawSections hook topic ;;
       finalSections <- refinePostLogic voiceRefined hook topic ;;
       ret (mkGeneratedPost finalSections
              (match get_prop result "design_idea" with Ok p => p | Err _ => None end)))
    (fun msg => throw ("Failed to generate post: " ++ msg)).

(** ** [regenerateSection] *)

Definition SECTION_DESCRIPTIONS : list (string * string) :=
  [("intro", "Introduction that connects to the hook and sets up the problem/context (1-2 sentences)");
   ("main_insight", "The core insight, main point, or key message (2-3 sentences)");
   ("supporting_detail", "Evidence, proof, example, visualization description, or quote that supports the main insight (2-3 sentences)");
   ("shift_takeaway", "A perspective shift or key takeaway for the reader (1-2 sentences)");
   ("cta", "A call-to-action or engaging question to encourage comments (1 sentence)")].

Definition regen_systemPrompt (sectionKey : string) : string :=
  unq "You are an expert LinkedIn content creator. Your task is to regenerate ONE specific section of a LinkedIn post while keeping it coherent with the other sections.

You are regenerating the `" ++ sectionKey ++ unq "` section.

Section requirements:
" ++ mapval_template (obj_lookup SECTION_DESCRIPTIONS sectionKey) ++ unq "

Guidelines:
- Make it different from the current version but maintain coherence with the rest of the post
- Use professional yet conversational tone
- Keep the same general message but express it differently
- You may add 1 emoji if appropriate
- Ensure it flows naturally with the sections before and after it

CRITICAL: Return ONLY the raw content text for this section.
DO NOT include:
- Section names or labels (like `INTRO:`, `Main Insight:`, etc.)
- Quotes around the text
- Any prefixes or formatting markers

Just output the actual content that would appear in the post, nothing else.".

Definition regen_userPrompt (sectionKey hook topic : string) (currentSections : PostSections)
    (intention : option string) : string :=
  "Topic: " ++ topic ++ newline ++
  (match intention with
   | Some i => if str_truthy intention then "Content Framework: " ++ i else ""
   | None => ""
   end) ++ newline ++ newline ++
  "Current post structure:" ++ newline ++ "---" ++ newline ++
  "HOOK: " ++ hook ++ newline ++ newline ++
  "INTRO: " ++ js_template (intro currentSections) ++ newline ++ newline ++
  "MAIN INSIGHT: " ++ js_template (main_insight currentSections) ++ newline ++ newline ++
  "SUPPORTING DETAIL: " ++ js_template (supporting_detail currentSections) ++ newline ++ newline ++
  "TAKEAWAY: " ++ js_template (shift_takeaway currentSections) ++ newline ++ newline ++
  "CTA: " ++ js_template (cta currentSections) ++ newline ++
  "---" ++ newline ++ newline ++
  unq "Please generate a NEW version of the `" ++ sectionKey ++
  unq "` section that is different from the current one but flows well with the other sections.".

Definition regenerateSection (sectionKey hook topic : string) (currentSections : PostSections)
    (intention : option string) : M string :=
  try_catch
    (rawSection <- generateChatCompletion (regen_systemPrompt sectionKey)
                     (regen_userPrompt sectionKey hook topic currentSections intention)
                     None None ;;
     refinedSection <- refineSingleSection sectionKey (trim rawSection) hook topic currentSections ;;
     ret refinedSection)
    (fun msg => throw ("Failed to regenerate section: " ++ msg)).

(** ** The [regeneratePostSection] request handler *)

(** [res.status(code).json(payload)] *)
Record http_response : Type := mkResponse {
  status : Z;
  payload : jsval
}.

Definition validSections : list string := section_keys.

(** [!x || typeof x !== 'string' || x.trim().length === 0] *)
Definition bad_string (x : option jsval) : bool :=
  match x with
  | Some (JStr s) => String.eqb (trim s) ""
  | _ => true
  end.

Definition fail_400 (msg : string) : M http_response :=
  ret (mkResponse 400 (JObj [("success", JBool false); ("message", JStr msg)])).

Definition regeneratePostSection (body : jsval) : M http_response :=
  try_catch
    (section <- lift (get_prop body "section") ;;
     hook <- lift (get_prop body "hook") ;;
     topic <- lift (get_prop body "topic") ;;
     current_sections <- lift (get_prop body "current_sections") ;;
     intention <- lift (get_prop body "intention") ;;
     if negb (match section with Some (JStr k) => includes validSections k | _ => false end)
     then fail_400 ("Invalid section. Must be one of: " ++ concat_with ", " validSections)
     else if bad_string hook then fail_400 "Hook is required and must be a non-empty string"
     else if bad_string topic then fail_400 "Topic is required and must be a non-empty string"
     else
     match current_sections with
     | Some ((JObj _ | JArr _) as cs) =>
         (* intention?.trim() *)
         its <- match intention with
                | None | Some JNull => ret None
                | Some (JStr i) => ret (Some (trim i))
                | Some _ => throw "intention.trim is not a function"
                end ;;
         (* [regenerateSection] declares [currentSections: PostSections]
            (strings) and interpolates its five fields in the user prompt
            before its [try] (linkedinService.ts, lines 473-491); the value
            passed here is the unchecked body field, and a field whose
            ToString throws rejects the call with that [TypeError] before any
            completion call. [regenerateSection] above is the function on its
            declared argument type; that rejection is taken here. *)
         newSectionContent <- (if sections_to_string_throws (sections_of cs)
                               then throw to_primitive_error
                               else regenerateSection (js_template section)
                                      (trim (js_template hook)) (trim (js_template topic))
                                      (sections_of cs) its) ;;
         ret (mkResponse 200
                (JObj [("success", JBool true);
                       ("data", JObj [("section", match section with Some v => v | None => JNull end);
                                      ("content", JStr newSectionContent)])]))
     | _ => fail_400 "Current sections object is required"
     end)
    (fun msg => ret (mkResponse 500
                       (JObj [("success", JBool false);
                              ("message", JStr (if String.eqb msg "" then "Failed to regenerate section" else msg))]))).

End Pipeline.

(** ** The other request handlers of the LinkedIn controller *)

(** [const { first, ... } = req.body]: destructuring [null] throws. *)
Definition destructure (body : jsval) (first : string) : result unit :=
  match body with
  | JNull => Err ("Cannot destructure property '" ++ first ++ "' of 'req.body' as it is null.")
  | _ => Ok tt
  end.

(** A property read off a destructured request body: only objects have
    own properties, and none of the field names is inherited. *)
Definition field (body : jsval) (k : string) : option jsval :=
  match body with
  | JObj props => assoc_last k props
  | _ => None
  end.

(** [x?.k] for keys no primitive inherits ([id], [user_metadata],
    [message]). *)
Definition opt_prop (x : option jsval) (k : string) : option jsval :=
  match x with
  | Some (JObj props) => assoc_last k props
  | _ => None
  end.

(** [v || d] *)
Definition or_else (v : option jsval) (d : jsval) : jsval :=
  match v with
  | Some w => if truthy v then w else d
  | None => d
  end.

(** An optional property of a JSON response: [undefined] is left out. *)
Definition opt_field (k : string) (v : option jsval) : list (string * jsval) :=
  match v with Some w => [(k, w)] | None => [] end.

Section Controllers.

Variable env : Env.
Variable backend : Backend.

(** The [catch] block of the handlers:
    [res.status(500).json({ success: false, message: error.message || dflt })]. *)
Definition fail_500 (dflt msg : string) : M http_response :=
  ret (mkResponse 500 (JObj [("success", JBool false);
                             ("message", JStr (if String.eqb msg "" then dflt else msg))])).

(** [intention?.trim()] *)
Definition optional_trim (intention : option jsval) : M (option string) :=
  match intention with
  | None | Some JNull => ret None
  | Some (JStr i) => ret (Some (trim i))
  | Some _ => throw "intention.trim is not a function"
  end.

(** [generateHooks(req, res)]; [supabaseUser] is [req.supabaseUser]. *)
Definition generateHooks (supabaseUser : option jsval) (body : jsval) : M http_response :=
  try_catch
    (_ <- lift (destructure body "topic") ;;
     let topic := field body "topic" in
     if bad_string topic then fail_400 "Topic is required and must be a non-empty string"
     else
       let userProfile := opt_prop supabaseUser "user_metadata" in
       hooks <- generateHooksFromTopic env backend (trim (js_template topic)) userProfile ;;
       ret (mkResponse 200
              (JObj [("success", JBool true);
                     ("data", JObj [("hooks", JArr hooks);
                                    ("topic", JStr (trim (js_template topic)))])])))
    (fail_500 "Failed to generate hooks").

(** [generatePost(req, res)] *)
Definition generatePost (supabaseUser : option jsval) (body : jsval) : M http_response :=
  try_catch
    (_ <- lift (destructure body "hook") ;;
     let hook := field body "hook" in
     let topic := field body "topic" in
     let intention := field body "intention" in
     if bad_string hook then fail_400 "Hook is required and must be a non-empty string"
     else if bad_string topic then fail_400 "Topic is required and must be a non-empty string"
     else
       let userProfile := opt_prop supabaseUser "user_metadata" in
       its <- optional_trim intention ;;
       result <- generatePostFromHook env backend (trim (js_template hook))
                   (trim (js_template topic)) its userProfile ;;
       ret (mkResponse 200
              (JObj [("success", JBool true);
                     ("data", JObj ([("sections", sections_to_jsval (gp_sections result))]
                                    ++ opt_field "design_idea" (gp_design_idea result)
                                    ++ [("hook", JStr (trim (js_template hook)))]))])))
    (fail_500 "Failed to generate post").

(** [recommendContentIntention(req, res)] *)
Definition recommendContentIntention (body : jsval) : M http_response :=
  try_catch
    (_ <- lift (destructure body "hook") ;;
     let hook := field body "hook" in
     let topic := field body "topic" in
     if bad_string hook then fail_400 "Hook is required and must be a non-empty string"
     else if bad_string topic then fail_400 "Topic is required and must be a non-empty string"
     else
       intention <- recommendIntention env backend (trim (js_template hook))
                      (trim (js_template topic)) ;;
       ret (mkResponse 200 (JObj [("success", JBool true); ("intention", JStr intention)])))
    (fail_500 "Failed to recommend intention").

End Controllers.

(** ** [encodeURIComponent] *)

(** The characters [encodeURIComponent] leaves alone:
    [A-Z a-z 0-9 - _ . ! ~ * ' ( )]. *)
Definition uri_unreserved (c : ascii) : bool :=
  let n := nat_of_ascii c in
  (Nat.leb 65 n && Nat.leb n 90) || (Nat.leb 97 n && Nat.leb n 122) || (Nat.leb 48 n && Nat.leb n 57)
  || existsb (Nat.eqb n) [45; 95; 46; 33; 126; 42; 39; 40; 41].

Definition hex_upper (n : nat) : ascii :=
  if Nat.ltb n 10 then char_of (48 + n) else char_of (55 + n).

Fixpoint encode_aux (l : list ascii) : list ascii :=
  match l with
  | [] => []
  | c :: rest =>
      if uri_unreserved c then c :: encode_aux rest
      else let n := nat_of_ascii c in
           char_of 37 :: hex_upper (n / 16) :: hex_upper (n mod 16) :: encode_aux rest
  end.

(** On the UTF-8 bytes of a well-formed string, percent-encoding every
    byte outside the unreserved set is what [encodeURIComponent] does with
    the UTF-8 encoding of each code point. *)
Definition encodeURIComponent (s : string) : string :=
  string_of_list_ascii (encode_aux (list_ascii_of_string s)).

(** [s.length]: the number of UTF-16 code units of the string whose UTF-8
    bytes are given. A lead byte below [0xF0] starts a code point of the
    basic plane (one unit), a lead byte from [0xF0] a supplementary one
    (a surrogate pair); continuation bytes add nothing. *)
Fixpoint utf16_length (l : list ascii) : nat :=
  match l with
  | [] => 0
  | c :: rest =>
      let n := nat_of_ascii c in
      (if Nat.ltb n 128 then 1 else if Nat.ltb n 192 then 0 else if Nat.ltb n 240 then 1 else 2)
      + utf16_length rest
  end.

(** ** HTTP calls, database calls and thrown errors *)

(** A request made with [axios]. *)
Record http_request : Type := mkHttpRequest {
  hr_method : string;
  hr_url : string;
  hr_headers : list (string * string);
  hr_body : option jsval
}.

(** What the server does with a request: it answers with a status, the
    response headers (names in lower case, as axios exposes them) and the
    body [response.data], or the request fails without a response. *)
Inductive http_outcome : Type :=
| HttpResponse (st : Z) (headers : list (string * string)) (data : jsval)
| HttpNetworkError (message : string).

(** [updatePostLinkedInMetadata(postId, userId, linkedinPostId, linkedinPostUrl)]
    and [updatePostStatusInDb(postId, userId, status)] of the posts
    repository. *)
Inductive db_call : Type :=
| UpdatePostLinkedInMetadata (postId userId : jsval) (linkedinPostId linkedinPostUrl : string)
| UpdatePostStatusInDb (postId userId : jsval) (st : Z).

Inductive event : Type :=
| EHttp (r : http_request)
| EDb (c : db_call).

(** The LinkedIn API and the database: each may answer depending on
    everything done so far. A database call resolves ([None]) or throws an
    [Error] with the given message. *)
Definition Http : Type := list event -> http_request -> http_outcome.
Definition Db : Type := list event -> db_call -> option string.

(** A thrown error: its [message] and, for axios errors, [error.response]
    ([status], [data]). *)
Record js_error : Type := mkJsError {
  err_message : string;
  err_response : option (Z * jsval)
}.

Inductive lresult (A : Type) : Type :=
| LOk (a : A)
| LErr (e : js_error).
Arguments LOk {A} a.
Arguments LErr {A} e.

Definition LM (A : Type) : Type := list event -> lresult A * list event.

Definition lret {A} (a : A) : LM A := fun log => (LOk a, log).
Definition lbind {A B} (m : LM A) (k : A -> LM B) : LM B :=
  fun log => match m log with
             | (LOk a, log') => k a log'
             | (LErr e, log') => (LErr e, log')
             end.
(** [throw new Error(msg)]: no [response]. *)
Definition lthrow {A} (msg : string) : LM A := fun log => (LErr (mkJsError msg None), log).
Definition ltry {A} (m : LM A) (h : js_error -> LM A) : LM A :=
  fun log => match m log with
             | (LErr e, log') => h e log'
             | r => r
             end.
Definition llift {A} (r : result A) : LM A :=
  fun log => match r with
             | Ok a => (LOk a, log)
             | Err msg => (LErr (mkJsError msg None), log)
             end.

Notation "x <~ m ;; k" := (lbind m (fun x => k))
  (at level 61, m at next level, right associativity).

(** The resolved value of an axios call. *)
Record axios_response : Type := mkAxiosResponse {
  ar_status : Z;
  ar_headers : list (string * string);
  ar_data : jsval
}.

(** [userInfo.sub] with [userInfo = response.data]: [null] throws, a
    string body finds [String.prototype.sub], an object its own
    property. *)
Inductive prop_read : Type :=
| OwnProp (v : option jsval)
| InheritedProp (rendering : string).

Definition read_sub (data : jsval) : result prop_read :=
  match data with
  | JNull => Err "Cannot read properties of null (reading 'sub')"
  | JStr _ => Ok (InheritedProp (native_fn "sub"))
  | JObj props => Ok (OwnProp (assoc_last "sub" props))
  | _ => Ok (OwnProp None)
  end.

Definition prop_read_truthy (p : prop_read) : bool :=
  match p with OwnProp v => truthy v | InheritedProp _ => true end.

(** [`${userInfo.sub}`], which throws for an object with an own
    [toString] key. *)
Definition prop_read_template (p : prop_read) : result string :=
  match p with OwnProp v => js_template_checked v | InheritedProp r => Ok r end.

Definition LINKEDIN_API_BASE : string := "https://api.linkedin.com".

Definition LINKEDIN_FEED_URL : string := "https://www.linkedin.com/feed/update/".

Definition userinfo_request (accessToken : string) : http_request :=
  mkHttpRequest "GET" (LINKEDIN_API_BASE ++ "/v2/userinfo")
    [("Authorization", "Bearer " ++ accessToken)] None.

Definition post_payload (authorUrn postText : string) : jsval :=
  JObj [("author", JStr authorUrn);
        ("commentary", JStr postText);
        ("visibility", JStr "PUBLIC");
        ("distribution", JObj [("feedDistribution", JStr "MAIN_FEED");
                               ("targetEntities", JArr []);
                               ("thirdPartyDistributionChannels", JArr [])]);
        ("lifecycleState", JStr "PUBLISHED");
        ("isReshareDisabledByAuthor", JBool false)].

Definition posts_request (accessToken authorUrn postText : string) : http_request :=
  mkHttpRequest "POST" (LINKEDIN_API_BASE ++ "/rest/posts")
    [("Authorization", "Bearer " ++ accessToken);
     ("Content-Type", "application/json");
     ("X-Restli-Protocol-Version", "2.0.0");
     ("LinkedIn-Version", "202501")]
    (Some (post_payload authorUrn postText)).

(** [LinkedInPublishResult] *)
Record LinkedInPublishResult : Type := mkPublishResult {
  pr_success : bool;
  pr_postId : option string;
  pr_postUrl : option string;
  pr_error : option jsval
}.

(** The [error] of the result built in the [catch] block of
    [publishToLinkedIn]. *)
Definition publish_error (error : js_error) : jsval :=
  let errorData := option_map snd (err_response error) in
  let fallback :=
    or_else (opt_prop errorData "message")
      (if String.eqb (err_message error) "" then JStr "Failed to publish to LinkedIn"
       else JStr (err_message error)) in
  match err_response error with
  | Some (st, _) =>
      if Z.eqb st 401 then JStr "LinkedIn access token is invalid or expired. Please sign in again."
      else if Z.eqb st 403 then
        JStr "You do not have permission to post to LinkedIn. Please check your app permissions."
      else if Z.eqb st 422 then
        or_else (opt_prop errorData "message")
          (JStr "LinkedIn rejected the post. It may be duplicate content.")
      else if Z.eqb st 429 then
        JStr "LinkedIn rate limit exceeded. Please wait a moment and try again."
      else fallback
  | None => fallback
  end.

Section LinkedIn.

Variable http : Http.
Variable db : Db.

(** [axios.get] / [axios.post] with the default [validateStatus]: a
    status outside [200..299] rejects with an error carrying the
    response. *)
Definition axios_request (req : http_request) : LM axios_response :=
  fun log =>
    let log' := (log ++ [EHttp req])%list in
    match http log req with
    | HttpResponse st hs d =>
        if ((200 <=? st)%Z && (st <? 300)%Z)%bool then (LOk (mkAxiosResponse st hs d), log')
        else (LErr (mkJsError ("Request failed with status code " ++ decimal st) (Some (st, d))), log')
    | HttpNetworkError m => (LErr (mkJsError m None), log')
    end.

(** [getLinkedInUserUrn(accessToken)] *)
Definition getLinkedInUserUrn (accessToken : string) : LM string :=
  ltry
    (response <~ axios_request (userinfo_request accessToken) ;;
     sub <~ llift (read_sub (ar_data response)) ;;
     if negb (prop_read_truthy sub) then lthrow "Could not retrieve LinkedIn user ID"
     else (subText <~ llift (prop_read_template sub) ;;
           lret ("urn:li:person:" ++ subText)))
    (fun error =>
       match err_response error with
       | Some (st, _) =>
           if Z.eqb st 401
           then lthrow "LinkedIn access token is invalid or expired. Please sign in again."
           else lthrow ("Failed to get LinkedIn user info: " ++ err_message error)
       | None => lthrow ("Failed to get LinkedIn user info: " ++ err_message error)
       end).

(** [publishToLinkedIn(accessToken, postText)] *)
Definition publishToLinkedIn (accessToken postText : string) : LM LinkedInPublishResult :=
  ltry
    (authorUrn <~ getLinkedInUserUrn accessToken ;;
     response <~ axios_request (posts_request accessToken authorUrn postText) ;;
     let postId := assoc_str "x-restli-id" (ar_headers response) in
     let postUrl := match postId with
                    | Some p => if str_truthy postId
                                then Some (LINKEDIN_FEED_URL ++ encodeURIComponent p) else None
                    | None => None
                    end in
     lret (mkPublishResult true (if str_truthy postId then postId else None) postUrl None))
    (fun error => lret (mkPublishResult false None None (Some (publish_error error)))).

(** A database call: the call is logged, then it resolves or throws. *)
Definition db_update (c : db_call) : LM unit :=
  fun log => (match db log c with
              | None => LOk tt
              | Some msg => LErr (mkJsError msg None)
              end, (log ++ [EDb c])%list).

(** [try { await update(...) } catch (dbError) { console.error(...) }] *)
Definition db_update_logged (c : db_call) : LM unit :=
  ltry (db_update c) (fun _ => lret tt).

Definition lrespond (code : Z) (msg : jsval) : LM http_response :=
  lret (mkResponse code (JObj [("success", JBool false); ("message", msg)])).

(** [publishLinkedInPost(req, res)] *)
Definition publishLinkedInPost (supabaseUser : option jsval) (body : jsval) : LM http_response :=
  ltry
    (_ <~ llift (destructure body "post_text") ;;
     let post_text := field body "post_text" in
     let linkedin_token := field body "linkedin_token" in
     let generated_post_id := field body "generated_post_id" in
     let userId := opt_prop supabaseUser "id" in
     if bad_string post_text
     then lrespond 400 (JStr "Post text is required and must be a non-empty string")
     else
     match linkedin_token with
     | Some (JStr token) =>
         if String.eqb token "" then lrespond 400 (JStr "LinkedIn access token is required")
         else if negb (truthy userId) then lrespond 401 (JStr "User not authenticated")
         else if Nat.ltb 3000 (utf16_length (list_ascii_of_string (js_template post_text)))
         then lrespond 400 (JStr "Post text exceeds LinkedIn character limit (3000 characters)")
         else
           publishResult <~ publishToLinkedIn token (trim (js_template post_text)) ;;
           if negb (pr_success publishResult)
           then lrespond 400 (or_else (pr_error publishResult) (JStr "Failed to publish to LinkedIn"))
           else
             let uid := match userId with Some u => u | None => JNull end in
             _ <~ (match generated_post_id with
                   | Some gid =>
                       if truthy generated_post_id then
                         match pr_postId publishResult with
                         | Some pid =>
                             if str_truthy (pr_postId publishResult)
                             then db_update_logged
                                    (UpdatePostLinkedInMetadata gid uid pid
                                       (match pr_postUrl publishResult with
                                        | Some u => u | None => "" end))
                             else db_update_logged (UpdatePostStatusInDb gid uid 2)
                         | None => db_update_logged (UpdatePostStatusInDb gid uid 2)
                         end
                       else lret tt
                   | None => lret tt
                   end) ;;
             lret (mkResponse 200
                     (JObj [("success", JBool true);
                            ("message", JStr "Post published to LinkedIn successfully");
                            ("data", JObj (opt_field "linkedin_post_id"
                                             (option_map JStr (pr_postId publishResult))
                                           ++ opt_field "linkedin_post_url"
                                                (option_map JStr (pr_postUrl publishResult))))]))
     | _ => lrespond 400 (JStr "LinkedIn access token is required")
     end)
    (fun error =>
       lrespond 500 (JStr (if String.eqb (err_message error) ""
                           then "Failed to publish post to LinkedIn" else err_message error))).

End LinkedIn.

(** ** Predicates and sample inputs used by the statements below *)

(** The refinement call failed, its text is not JSON, or the parsed value
    lacks one of the five section keys (reading a key of [null] throws). *)
Definition refinement_degraded (c : result string) : Prop :=
  match c with
  | Err _ => True
  | Ok resp =>
      match JSON_parse resp with
      | Err _ => True
      | Ok v => exists k, In k section_keys /\
                  match get_prop v k with Ok p => p = None | Err _ => True end
      end
  end.

Definition is_err {A} (r : result A) : bool :=
  match r with Err _ => true | Ok _ => false end.

Definition env_configured : Env := mkEnv (Some "sk-test") None.

Definition backend_down : Backend := fun _ _ => Reject "connect ECONNREFUSED".

Definition backend_reply (s : string) : Backend := fun _ _ => Reply (Some s).

(** Answers the [n]-th request with the [n]-th text of the script. *)
Definition backend_script (script : list string) : Backend :=
  fun log _ => match nth_error script (length log) with
               | Some s => Reply (Some s)
               | None => Reply None
               end.

Definition sample_sections : PostSections :=
  mkPostSections (Some (JStr "Remote work is not the problem."))
                 (Some (JStr "Your calendar is."))
                 (Some (JStr "Back-to-back calls leave no time to think."))
                 (Some (JStr "Guard your focus hours."))
                 (Some (JStr "How do you protect yours?")).

(** All five sections are set to a truthy value. *)
Definition complete_sections (s : PostSections) : bool :=
  truthy (intro s) && truthy (main_insight s) && truthy (supporting_detail s)
  && truthy (shift_takeaway s) && truthy (cta s).

(** Model answers for a full pipeline run: the base draft, then the
    voice-refined sections, then a logic answer that is not JSON. *)
Definition base_answer : string := unq
  "{`intro`:`a`,`main_insight`:`b`,`supporting_detail`:`c`,`shift_takeaway`:`d`,`cta`:`e`,`design_idea`:`x`}".

Definition voice_answer : string := unq
  "{`intro`:`A`,`main_insight`:`B`,`supporting_detail`:`C`,`shift_takeaway`:`D`,`cta`:`E`}".

Definition backend_pipeline : Backend :=
  backend_script [base_answer; voice_answer; "Sorry, I cannot do that."].

Definition invalid_section_body : jsval :=
  JObj [("section", JStr "headline"); ("hook", JStr "Remote work is not the problem.");
        ("topic", JStr "remote work burnout");
        ("current_sections", sections_to_jsval sample_sections)].

Definition invalid_section_response : http_response :=
  mkResponse 400 (JObj [("success", JBool false);
                        ("message", JStr ("Invalid section. Must be one of: "
                                          ++ "intro, main_insight, supporting_detail, shift_takeaway, cta"))]).

(** A status axios resolves with. *)
Definition ok_status (st : Z) : bool := ((200 <=? st)%Z && (st <? 300)%Z)%bool.

(** The database calls among logged events. *)
Definition db_calls (evs : list event) : list db_call :=
  flat_map (fun e => match e with EDb c => [c] | EHttp _ => [] end) evs.

(** [payload.data[k]] of a response, when it is a string. *)
Definition response_data_string (r : http_response) (k : string) : option string :=
  match opt_prop (opt_prop (Some (payload r)) "data") k with
  | Some (JStr s) => Some s
  | _ => None
  end.

(** A LinkedIn API answering the userinfo call and the posts call with the
    given statuses. *)
Definition linkedin_server (userinfo_status posts_status : Z) : Http :=
  fun _ r =>
    if String.eqb (hr_method r) "GET"
    then HttpResponse userinfo_status [] (JObj [("sub", JStr "abc123")])
    else HttpResponse posts_status [("x-restli-id", "urn:li:share:7000")]
                      (JObj [("message", JStr "Duplicate post")]).

Definition db_down : Db := fun _ _ => Some "connection terminated".

Definition linkedin_user : option jsval := Some (JObj [("id", JStr "user-1")]).

Definition publish_body : jsval :=
  JObj [("post_text", JStr " Guard your focus hours. "); ("linkedin_token", JStr "tok");
        ("generated_post_id", JNum 42 0)].

(** ** Generic facts about the monad *)

Lemma try_catch_fallback_total {A} (m : M A) (x : A) log :
  exists a, fst (try_catch m (fun _ => ret x) log) = Ok a.
Proof.
  unfold try_catch, ret. destruct (m log) as [[a|msg] log']; simpl; eauto.
Qed.

Lemma any_missing_hit (v : jsval) (keys : list string) (k : string) :
  In k keys ->
  match get_prop v k with Ok p => truthy p = false | Err _ => True end ->
  any_missing v keys <> Ok false.
Proof.
  induction keys as [|k0 rest IH]; simpl; [tauto|].
  intros [->|Hin] Hk.
  - destruct (get_prop v k) as [p|msg]; [|discriminate].
    rewrite Hk. simpl. discriminate.
  - destruct (get_prop v k0) as [p|msg]; [|discriminate].
    destruct (truthy p); simpl; [exact (IH Hin Hk)|discriminate].
Qed.

Lemma any_missing_false (v : jsval) (keys : list string) (k : string) :
  any_missing v keys = Ok false -> In k keys ->
  exists p, get_prop v k = Ok p /\ truthy p = true.
Proof.
  intros H Hin.
  destruct (get_prop v k) as [p|msg] eqn:E.
  - exists p. split; [reflexivity|].
    destruct (truthy p) eqn:T; [reflexivity|].
    exfalso. apply (any_missing_hit v keys k Hin); [rewrite E; exact T | exact H].
  - exfalso. apply (any_missing_hit v keys k Hin); [rewrite E; exact I | exact H].
Qed.

(** Both full-post refinement stages have this shape. *)
Lemma refine_stage_result (c : M string) (sections : PostSections) log :
  fst (try_catch
         (response <- c ;;
          refined <- lift (JSON_parse response) ;;
          incomplete <- lift (any_missing refined section_keys) ;;
          if incomplete then ret sections else ret (sections_of refined))
         (fun _ => ret sections) log)
  = match fst (c log) with
    | Err _ => Ok sections
    | Ok resp =>
        match JSON_parse resp with
        | Err _ => Ok sections
        | Ok v => match any_missing v section_keys with
                  | Ok false => Ok (sections_of v)
                  | _ => Ok sections
                  end
        end
    end.
Proof.
  unfold try_catch, bind, lift, ret.
  destruct (c log) as [[resp|msg] log1]; cbn -[any_missing JSON_parse]; [|reflexivity].
  destruct (JSON_parse resp) as [v|msg']; cbn -[any_missing]; [|reflexivity].
  destruct (any_missing v section_keys) as [[|]|msg'']; reflexivity.
Qed.

Lemma refine_stage_degraded (c : M string) (sections : PostSections) log :
  refinement_degraded (fst (c log)) ->
  fst (try_catch
         (response <- c ;;
          refined <- lift (JSON_parse response) ;;
          incomplete <- lift (any_missing refined section_keys) ;;
          if incomplete then ret sections else ret (sections_of refined))
         (fun _ => ret sections) log) = Ok sections.
Proof.
  rewrite refine_stage_result. unfold refinement_degraded.
  destruct (fst (c log)) as [resp|msg]; [|reflexivity].
  destruct (JSON_parse resp) as [v|msg']; [|reflexivity].
  intros [k [Hin Hk]].
  destruct (any_missing v section_keys) as [[|]|m] eqn:E; try reflexivity.
  exfalso. apply (any_missing_hit v section_keys k Hin); [|exact E].
  destruct (get_prop v k); [subst; reflexivity | exact I].
Qed.

(** ** C1: the refinement stages degrade to their input *)

(** C1. Whenever the completion call of [refinePostVoice] (resp.
    [refinePostLogic]) fails, its text is not JSON, or the parsed value
    lacks one of the five section keys, the stage resolves with exactly the
    sections it was given; and neither stage ever throws. *)
Theorem refinement_returns_input_on_failure :
  forall env backend sections hook topic log,
    (refinement_degraded
       (fst (generateChatCompletion env backend voice_systemPrompt
               (voice_userPrompt sections hook topic) (Some REFINEMENT_MODEL) (Some 0.7%Q) log)) ->
     fst (refinePostVoice env backend sections hook topic log) = Ok sections) /\
    (refinement_degraded
       (fst (generateChatCompletion env backend logic_systemPrompt
               (logic_userPrompt sections hook topic) (Some REFINEMENT_MODEL) (Some 0.5%Q) log)) ->
     fst (refinePostLogic env backend sections hook topic log) = Ok sections) /\
    (exists s, fst (refinePostVoice env backend sections hook topic log) = Ok s) /\
    (exists s, fst (refinePostLogic env backend sections hook topic log) = Ok s).
Proof.
  intros env backend sections hook topic log.
  split; [|split; [|split]].
  - apply refine_stage_degraded.
  - apply refine_stage_degraded.
  - apply try_catch_fallback_total.
  - apply try_catch_fallback_total.
Qed.

(** ** C2: the recommender always answers from the catalog *)

(** C2. For every backend, [recommendIntention] resolves with a member of
    the nine-entry catalog: the trimmed answer when it is a catalog entry,
    otherwise (or when the completion call fails) the default framework. *)
Theorem recommendIntention_in_catalog :
  forall env backend hook topic log,
    (exists l, fst (recommendIntention env backend hook topic log) = Ok l /\ In l frameworks) /\
    fst (recommendIntention env backend hook topic log) =
      match fst (generateChatCompletion env backend recommend_systemPrompt
                   (recommend_userPrompt hook topic) None None log) with
      | Err _ => Ok default_framework
      | Ok resp => if includes frameworks (trim resp) then Ok (trim resp)
                   else Ok default_framework
      end.
Proof.
  intros env backend hook topic log.
  assert (Hd : In default_framework frameworks) by (simpl; tauto).
  assert (E : fst (recommendIntention env backend hook topic log) =
      match fst (generateChatCompletion env backend recommend_systemPrompt
                   (recommend_userPrompt hook topic) None None log) with
      | Err _ => Ok default_framework
      | Ok resp => if includes frameworks (trim resp) then Ok (trim resp)
                   else Ok default_framework
      end).
  { unfold recommendIntention, try_catch, bind, ret.
    destruct (generateChatCompletion env backend recommend_systemPrompt
                (recommend_userPrompt hook topic) None None log) as [[resp|msg] log1];
      cbn -[includes trim]; [|reflexivity].
    destruct (includes frameworks (trim resp)); reflexivity. }
  split; [|exact E].
  rewrite E.
  destruct (fst (generateChatCompletion env backend recommend_systemPrompt
                   (recommend_userPrompt hook topic) None None log)) as [resp|msg].
  - destruct (includes frameworks (trim resp)) eqn:I.
    + exists (trim resp). split; [reflexivity|].
      unfold includes in I. apply existsb_exists in I.
      destruct I as [x [Hx Heq]]. apply String.eqb_eq in Heq. subst. exact Hx.
    + eauto.
  - eauto.
Qed.

(** C1 at a concrete input: the provider is unreachable. *)
Lemma refinement_returns_input_on_failure_witness :
  fst (refinePostVoice env_configured backend_down sample_sections "h" "t" []) = Ok sample_sections /\
  fst (refinePostLogic env_configured backend_down sample_sections "h" "t" []) = Ok sample_sections.
Proof.
  split.
  - apply (proj1 (refinement_returns_input_on_failure
                    env_configured backend_down sample_sections "h" "t" [])).
    vm_compute. exact I.
  - apply (proj1 (proj2 (refinement_returns_input_on_failure
                           env_configured backend_down sample_sections "h" "t" []))).
    vm_compute. exact I.
Defined.

(** ** Complete section sets *)

Lemma any_missing_app (v : jsval) (l1 l2 : list string) :
  any_missing v (l1 ++ l2)%list = Ok false -> any_missing v l1 = Ok false.
Proof.
  induction l1 as [|k rest IH]; simpl; intros H.
  - reflexivity.
  - destruct (get_prop v k) as [p|msg]; [|discriminate].
    destruct (truthy p); simpl in *; [exact (IH H)|discriminate].
Qed.

Lemma read_truthy (v : jsval) (keys : list string) (k : string) :
  any_missing v keys = Ok false -> In k keys ->
  truthy (match get_prop v k with Ok p => p | Err _ => None end) = true.
Proof.
  intros H Hin. destruct (any_missing_false v keys k H Hin) as [p [E T]].
  rewrite E. exact T.
Qed.

Lemma sections_of_complete (v : jsval) :
  any_missing v section_keys = Ok false -> complete_sections (sections_of v) = true.
Proof.
  intros H. unfold complete_sections, sections_of. simpl.
  rewrite !(read_truthy v section_keys); simpl; tauto.
Qed.

Lemma refine_stage_complete (c : M string) (sections s' : PostSections) log :
  complete_sections sections = true ->
  fst (try_catch
         (response <- c ;;
          refined <- lift (JSON_parse response) ;;
          incomplete <- lift (any_missing refined section_keys) ;;
          if incomplete then ret sections else ret (sections_of refined))
         (fun _ => ret sections) log) = Ok s' ->
  complete_sections s' = true.
Proof.
  rewrite refine_stage_result. intros Hc.
  destruct (fst (c log)) as [resp|msg]; [|injection 1 as <-; exact Hc].
  destruct (JSON_parse resp) as [v|m]; [|injection 1 as <-; exact Hc].
  destruct (any_missing v section_keys) as [[|]|m] eqn:E; injection 1 as <-;
    [exact Hc | exact (sections_of_complete v E) | exact Hc].
Qed.

Lemma refinePostVoice_complete env backend sections hook topic log s' :
  complete_sections sections = true ->
  fst (refinePostVoice env backend sections hook topic log) = Ok s' ->
  complete_sections s' = true.
Proof. apply refine_stage_complete. Qed.

Lemma refinePostLogic_complete env backend sections hook topic log s' :
  complete_sections sections = true ->
  fst (refinePostLogic env backend sections hook topic log) = Ok s' ->
  complete_sections s' = true.
Proof. apply refine_stage_complete. Qed.

(** What [generatePostFromHook] does after the base completion call. *)
Lemma generatePostFromHook_unfold env backend hook topic intention userProfile log :
  generatePostFromHook env backend hook topic intention userProfile log =
  match generateChatCompletion env backend (post_systemPrompt intention)
          (post_userPrompt hook topic intention userProfile) None None log with
  | (Err msg, log1) => (Err ("Failed to generate post: " ++ msg), log1)
  | (Ok response, log1) =>
      match JSON_parse response with
      | Err msg => (Err ("Failed to generate post: " ++ msg), log1)
      | Ok result =>
          match any_missing result post_keys with
          | Err msg => (Err ("Failed to generate post: " ++ msg), log1)
          | Ok true => (Err ("Failed to generate post: "
                             ++ "Invalid response format from AI - missing required sections"), log1)
          | Ok false =>
              match refinePostVoice env backend (sections_of result) hook topic log1 with
              | (Err msg, log2) => (Err ("Failed to generate post: " ++ msg), log2)
              | (Ok voiceRefined, log2) =>
                  match refinePostLogic env backend voiceRefined hook topic log2 with
                  | (Err msg, log3) => (Err ("Failed to generate post: " ++ msg), log3)
                  | (Ok finalSections, log3) =>
                      (Ok (mkGeneratedPost finalSections
                             (match get_prop result "design_idea" with
                              | Ok p => p | Err _ => None end)), log3)
                  end
              end
          end
      end
  end.
Proof.
  unfold generatePostFromHook, try_catch, bind, lift, ret, throw.
  destruct (generateChatCompletion env backend (post_systemPrompt intention)
              (post_userPrompt hook topic intention userProfile) None None log)
    as [[response|msg] log1]; [|reflexivity].
  destruct (JSON_parse response) as [result|msg]; [|reflexivity].
  destruct (any_missing result post_keys) as [[|]|msg]; [reflexivity| |reflexivity].
  destruct (refinePostVoice env backend (sections_of result) hook topic log1)
    as [[voiceRefined|msg] log2]; [|reflexivity].
  destruct (refinePostLogic env backend voiceRefined hook topic log2)
    as [[finalSections|msg] log3]; reflexivity.
Qed.

(** ** C3: the base generator rejects incomplete answers *)

(** C3. [generatePostFromHook] never resolves with a partial section set:
    when it resolves, all five sections and the design idea are truthy. An
    answer parsing to a non-null value with a missing key fails with the
    explicit missing-sections error, but an answer parsing to [null] fails
    with the [TypeError] of reading [null.intro] instead. *)
Theorem generatePostFromHook_complete_or_fails :
  (forall env backend hook topic intention userProfile log,
     match fst (generatePostFromHook env backend hook topic intention userProfile log) with
     | Ok gp => complete_sections (gp_sections gp) = true /\ truthy (gp_design_idea gp) = true
     | Err _ => True
     end) /\
  fst (generatePostFromHook env_configured (backend_reply "{}") "h" "t" None None []) =
    Err "Failed to generate post: Invalid response format from AI - missing required sections" /\
  fst (generatePostFromHook env_configured (backend_reply "null") "h" "t" None None []) =
    Err "Failed to generate post: Cannot read properties of null (reading 'intro')".
Proof.
  split; [|split; vm_compute; reflexivity].
  intros env backend hook topic intention userProfile log.
  rewrite generatePostFromHook_unfold.
  destruct (generateChatCompletion env backend (post_systemPrompt intention)
              (post_userPrompt hook topic intention userProfile) None None log)
    as [[response|msg] log1]; [|exact I].
  destruct (JSON_parse response) as [result|msg]; [|exact I].
  destruct (any_missing result post_keys) as [[|]|msg] eqn:Em; [exact I| |exact I].
  destruct (refinePostVoice env backend (sections_of result) hook topic log1)
    as [[voiceRefined|msg] log2] eqn:E1; [|exact I].
  destruct (refinePostLogic env backend voiceRefined hook topic log2)
    as [[finalSections|msg] log3] eqn:E2; [|exact I].
  simpl. split.
  - apply (refinePostLogic_complete env backend voiceRefined hook topic log2);
      [|rewrite E2; reflexivity].
    apply (refinePostVoice_complete env backend (sections_of result) hook topic log1);
      [|rewrite E1; reflexivity].
    apply sections_of_complete. exact (any_missing_app _ _ _ Em).
  - apply (read_truthy result post_keys); [exact Em|].
    unfold post_keys, section_keys. simpl. tauto.
Qed.

(** ** The hook generator *)

Lemma hooks_result env backend topic userProfile log :
  fst (generateHooksFromTopic env backend topic userProfile log) =
  match fst (generateChatCompletion env backend hooks_systemPrompt
               (hooks_userPrompt topic userProfile) None None log) with
  | Err msg => Err ("Failed to generate hooks: " ++ msg)
  | Ok response =>
      match JSON_parse response with
      | Err msg => Err ("Failed to generate hooks: " ++ msg)
      | Ok (JArr items) => Ok items
      | Ok _ => Err "Failed to generate hooks: Invalid response format from AI"
      end
  end.
Proof.
  unfold generateHooksFromTopic, try_catch, bind, lift, ret, throw.
  destruct (generateChatCompletion env backend hooks_systemPrompt
              (hooks_userPrompt topic userProfile) None None log) as [[response|msg] log1];
    cbn [fst]; [|reflexivity].
  destruct (JSON_parse response) as [[]|msg]; reflexivity.
Qed.

(** C4 (as amended). [generateHooksFromTopic] resolves with exactly the
    elements of the JSON array the model answered, whatever their number
    and their types; otherwise it fails. *)
Theorem generateHooksFromTopic_returns_parsed_array :
  forall env backend topic userProfile log,
    fst (generateHooksFromTopic env backend topic userProfile log) =
    match fst (generateChatCompletion env backend hooks_systemPrompt
                 (hooks_userPrompt topic userProfile) None None log) with
    | Err msg => Err ("Failed to generate hooks: " ++ msg)
    | Ok response =>
        match JSON_parse response with
        | Err msg => Err ("Failed to generate hooks: " ++ msg)
        | Ok (JArr items) => Ok items
        | Ok _ => Err "Failed to generate hooks: Invalid response format from AI"
        end
    end.
Proof. intros. apply hooks_result. Qed.

(** C4 fails: the model answers [[]] and the call resolves with no hooks;
    it answers [[1, 2]] and the call resolves with two numbers. *)
Lemma generateHooksFromTopic_zero_hooks :
  fst (generateHooksFromTopic env_configured (backend_reply "[]")
         "remote work burnout" None []) = Ok [] /\
  fst (generateHooksFromTopic env_configured (backend_reply "[1, 2]")
         "remote work burnout" None []) = Ok [JNum 1 0; JNum 2 0].
Proof. split; vm_compute; reflexivity. Qed.

(** C8. Once the completion call has returned a text, the hook generator
    fails exactly when that text is not JSON or is JSON but not an array:
    with the parser's error in the first case and with
    [Invalid response format from AI] in the second. *)
Theorem generateHooksFromTopic_malformed_iff :
  forall env backend topic userProfile log response,
    fst (generateChatCompletion env backend hooks_systemPrompt
           (hooks_userPrompt topic userProfile) None None log) = Ok response ->
    (is_err (fst (generateHooksFromTopic env backend topic userProfile log)) = true <->
       match JSON_parse response with Ok (JArr _) => False | _ => True end) /\
    (forall msg, JSON_parse response = Err msg ->
       fst (generateHooksFromTopic env backend topic userProfile log) =
         Err ("Failed to generate hooks: " ++ msg)) /\
    (forall v, JSON_parse response = Ok v -> (forall items, v <> JArr items) ->
       fst (generateHooksFromTopic env backend topic userProfile log) =
         Err "Failed to generate hooks: Invalid response format from AI").
Proof.
  intros env backend topic userProfile log response Hc.
  rewrite !hooks_result, Hc.
  split; [|split].
  - destruct (JSON_parse response) as [[]|msg]; simpl; split; auto; discriminate.
  - intros msg E. rewrite E. reflexivity.
  - intros v E Hv. rewrite E.
    destruct v; try reflexivity. exfalso. exact (Hv items eq_refl).
Qed.

(** C8 at a concrete input: the model answers prose instead of JSON. *)
Lemma generateHooksFromTopic_malformed_iff_witness :
  is_err (fst (generateHooksFromTopic env_configured
                 (backend_reply "Here are some hooks: 1. Stop") "burnout" None [])) = true /\
  fst (generateHooksFromTopic env_configured
         (backend_reply "Here are some hooks: 1. Stop") "burnout" None []) =
    Err ("Failed to generate hooks: " ++
         "Unexpected token in JSON: Here are some hooks: 1. Stop").
Proof.
  destruct (generateHooksFromTopic_malformed_iff env_configured
              (backend_reply "Here are some hooks: 1. Stop") "burnout" None []
              "Here are some hooks: 1. Stop") as [Hiff [Hsyn _]].
  - vm_compute. reflexivity.
  - split.
    + apply Hiff. vm_compute. exact I.
    + apply Hsyn. vm_compute. reflexivity.
Defined.

(** ** C5: base generation always runs both refinement stages *)

Lemma refinePostVoice_total env backend sections hook topic log :
  exists s log', refinePostVoice env backend sections hook topic log = (Ok s, log').
Proof.
  destruct (try_catch_fallback_total
              (response <- generateChatCompletion env backend voice_systemPrompt
                             (voice_userPrompt sections hook topic)
                             (Some REFINEMENT_MODEL) (Some 0.7%Q) ;;
               refined <- lift (JSON_parse response) ;;
               incomplete <- lift (any_missing refined section_keys) ;;
               if incomplete then ret sections else ret (sections_of refined))
              sections log) as [s Hs].
  exists s. unfold refinePostVoice.
  destruct (try_catch _ _ log) as [r log'] eqn:E. simpl in Hs. subst. eauto.
Qed.

Lemma refinePostLogic_total env backend sections hook topic log :
  exists s log', refinePostLogic env backend sections hook topic log = (Ok s, log').
Proof.
  destruct (try_catch_fallback_total
              (response <- generateChatCompletion env backend logic_systemPrompt
                             (logic_userPrompt sections hook topic)
                             (Some REFINEMENT_MODEL) (Some 0.5%Q) ;;
               polished <- lift (JSON_parse response) ;;
               incomplete <- lift (any_missing polished section_keys) ;;
               if incomplete then ret sections else ret (sections_of polished))
              sections log) as [s Hs].
  exists s. unfold refinePostLogic.
  destruct (try_catch _ _ log) as [r log'] eqn:E. simpl in Hs. subst. eauto.
Qed.

(** C5 (as amended). Once the base answer is a complete JSON object,
    [generatePostFromHook] runs [refinePostVoice] on the parsed sections,
    then [refinePostLogic] on the result, and resolves with what the logic
    stage returned. *)
Theorem generatePostFromHook_refines_base :
  forall env backend hook topic intention userProfile log response log1 v,
    generateChatCompletion env backend (post_systemPrompt intention)
      (post_userPrompt hook topic intention userProfile) None None log = (Ok response, log1) ->
    JSON_parse response = Ok v ->
    any_missing v post_keys = Ok false ->
    exists voiceRefined log2 finalSections log3,
      refinePostVoice env backend (sections_of v) hook topic log1 = (Ok voiceRefined, log2) /\
      refinePostLogic env backend voiceRefined hook topic log2 = (Ok finalSections, log3) /\
      generatePostFromHook env backend hook topic intention userProfile log =
        (Ok (mkGeneratedPost finalSections
               (match get_prop v "design_idea" with Ok p => p | Err _ => None end)), log3).
Proof.
  intros env backend hook topic intention userProfile log response log1 v Hc Hp Hm.
  destruct (refinePostVoice_total env backend (sections_of v) hook topic log1)
    as [voiceRefined [log2 E1]].
  destruct (refinePostLogic_total env backend voiceRefined hook topic log2)
    as [finalSections [log3 E2]].
  exists voiceRefined, log2, finalSections, log3.
  split; [exact E1|split; [exact E2|]].
  rewrite generatePostFromHook_unfold, Hc, Hp, Hm, E1, E2. reflexivity.
Qed.

(** C5 at a concrete input. *)
Lemma generatePostFromHook_refines_base_witness :
  exists voiceRefined log2 finalSections log3,
    refinePostVoice env_configured backend_pipeline
      (sections_of (JObj [("intro", JStr "a"); ("main_insight", JStr "b");
                          ("supporting_detail", JStr "c"); ("shift_takeaway", JStr "d");
                          ("cta", JStr "e"); ("design_idea", JStr "x")]))
      "h" "t" (snd (generateChatCompletion env_configured backend_pipeline
                      (post_systemPrompt None) (post_userPrompt "h" "t" None None)
                      None None [])) = (Ok voiceRefined, log2) /\
    refinePostLogic env_configured backend_pipeline voiceRefined "h" "t" log2
      = (Ok finalSections, log3) /\
    generatePostFromHook env_configured backend_pipeline "h" "t" None None [] =
      (Ok (mkGeneratedPost finalSections (Some (JStr "x"))), log3).
Proof.
  apply (generatePostFromHook_refines_base env_configured backend_pipeline "h" "t" None None []
           base_answer
           (snd (generateChatCompletion env_configured backend_pipeline
                   (post_systemPrompt None) (post_userPrompt "h" "t" None None) None None []))
           (JObj [("intro", JStr "a"); ("main_insight", JStr "b");
                  ("supporting_detail", JStr "c"); ("shift_takeaway", JStr "d");
                  ("cta", JStr "e"); ("design_idea", JStr "x")])).
  - vm_compute. reflexivity.
  - vm_compute. reflexivity.
  - vm_compute. reflexivity.
Defined.

(** C5 fails: with a model whose voice pass rewrites every section, the
    sections [generatePostFromHook] resolves with are not the parsed base
    sections, and three completion calls were made. *)
Lemma generatePostFromHook_not_base :
  fst (generatePostFromHook env_configured backend_pipeline "h" "t" None None []) =
    Ok (mkGeneratedPost
          (mkPostSections (Some (JStr "A")) (Some (JStr "B")) (Some (JStr "C"))
                          (Some (JStr "D")) (Some (JStr "E")))
          (Some (JStr "x"))) /\
  length (snd (generatePostFromHook env_configured backend_pipeline "h" "t" None None [])) = 3.
Proof. split; vm_compute; reflexivity. Qed.

(** ** C6: an unknown section key is refused before any model call *)

Lemma get_prop_total (body : jsval) (k k' : string) (p : option jsval) :
  get_prop body k = Ok p -> exists q, get_prop body k' = Ok q.
Proof. destruct body; simpl; [discriminate| eauto ..]. Qed.

(** C6. When the [section] field of a regenerate-section request is not
    one of the five section keys (or not a string at all), the handler
    answers 400 with the invalid-section message, and the log of
    requests sent to the provider is left unchanged: no completion call
    was made. *)
Theorem regeneratePostSection_invalid_key :
  forall env backend body log section,
    get_prop body "section" = Ok section ->
    match section with Some (JStr k) => includes validSections k = false | _ => True end ->
    regeneratePostSection env backend body log = (Ok invalid_section_response, log).
Proof.
  intros env backend body log section Hs Hk.
  destruct (get_prop_total body "section" "hook" section Hs) as [h Eh].
  destruct (get_prop_total body "section" "topic" section Hs) as [t Et].
  destruct (get_prop_total body "section" "current_sections" section Hs) as [c Ec].
  destruct (get_prop_total body "section" "intention" section Hs) as [i Ei].
  unfold regeneratePostSection, try_catch, bind, lift.
  rewrite Hs, Eh, Et, Ec, Ei.
  destruct section as [[]|]; try reflexivity.
  rewrite Hk. reflexivity.
Qed.

(** C6 at a concrete input: section ["headline"]. *)
Lemma regeneratePostSection_invalid_key_witness :
  regeneratePostSection env_configured (backend_reply "A new intro.") invalid_section_body []
    = (Ok invalid_section_response, []).
Proof.
  apply (regeneratePostSection_invalid_key env_configured (backend_reply "A new intro.")
           invalid_section_body [] (Some (JStr "headline"))).
  - reflexivity.
  - vm_compute. reflexivity.
Defined.

(** ** C7: a failed polish falls back to the raw section *)

(** C7. If the generation call of [regenerateSection] fails, the failure
    propagates; otherwise, if the polishing call fails, the result is the
    trimmed raw text, and if it succeeds, the trimmed polished text. *)
Theorem regenerateSection_polish_fallback :
  forall env backend sectionKey hook topic currentSections intention log,
    match generateChatCompletion env backend (regen_systemPrompt sectionKey)
            (regen_userPrompt sectionKey hook topic currentSections intention) None None log with
    | (Err msg, _) =>
        fst (regenerateSection env backend sectionKey hook topic currentSections intention log)
        = Err ("Failed to regenerate section: " ++ msg)
    | (Ok rawSection, log1) =>
        match generateChatCompletion env backend single_systemPrompt
                (single_userPrompt sectionKey (trim rawSection) hook topic currentSections)
                (Some REFINEMENT_MODEL) (Some 0.6%Q) log1 with
        | (Err _, _) =>
            fst (regenerateSection env backend sectionKey hook topic currentSections intention log)
            = Ok (trim rawSection)
        | (Ok polished, _) =>
            fst (regenerateSection env backend sectionKey hook topic currentSections intention log)
            = Ok (trim polished)
        end
    end.
Proof.
  intros env backend sectionKey hook topic currentSections intention log.
  unfold regenerateSection, refineSingleSection, try_catch, bind, ret, throw.
  destruct (generateChatCompletion env backend (regen_systemPrompt sectionKey)
              (regen_userPrompt sectionKey hook topic currentSections intention) None None log)
    as [[rawSection|msg] log1]; [|reflexivity].
  destruct (generateChatCompletion env backend single_systemPrompt
              (single_userPrompt sectionKey (trim rawSection) hook topic currentSections)
              (Some REFINEMENT_MODEL) (Some 0.6%Q) log1) as [[polished|msg] log2];
    reflexivity.
Qed.

(** ** C9: what the completion request carries *)

(** C9 at one call: the temperatures 0.1 and 1.9 give the same request
    and the same result. *)
Lemma temperature_not_sent :
  generateChatCompletion env_configured (backend_reply "ok") "s" "u" None (Some 0.1%Q) [] =
  generateChatCompletion env_configured (backend_reply "ok") "s" "u" None (Some 1.9%Q) [].
Proof. reflexivity. Qed.

(** One completion call logs one request when the key is configured. *)
Lemma completion_log env backend systemPrompt userPrompt model t log :
  snd (generateChatCompletion env backend systemPrompt userPrompt model t log) =
    (if isOpenAIConfigured env
     then log ++ [mkRequest (match model with Some m => m | None => OPEN_AI_MODEL env end)
                            [("system", systemPrompt); ("user", userPrompt)]]
     else log)%list.
Proof.
  unfold generateChatCompletion, try_catch, bind, throw, ret, call_api.
  destruct (isOpenAIConfigured env); simpl; [|reflexivity].
  destruct (backend log _) as [[c|]|msg]; simpl; [|reflexivity|reflexivity].
  destruct (negb (c =? "")); reflexivity.
Qed.

Lemma hooks_log env backend topic userProfile log :
  snd (generateHooksFromTopic env backend topic userProfile log) =
  snd (generateChatCompletion env backend hooks_systemPrompt
         (hooks_userPrompt topic userProfile) None None log).
Proof.
  unfold generateHooksFromTopic, try_catch, bind, lift, ret, throw.
  destruct (generateChatCompletion env backend hooks_systemPrompt
              (hooks_userPrompt topic userProfile) None None log) as [[response|msg] log1];
    cbn [snd]; [|reflexivity].
  destruct (JSON_parse response) as [[]|msg]; reflexivity.
Qed.

Lemma recommend_log env backend hook topic log :
  snd (recommendIntention env backend hook topic log) =
  snd (generateChatCompletion env backend recommend_systemPrompt
         (recommend_userPrompt hook topic) None None log).
Proof.
  unfold recommendIntention, try_catch, bind, ret.
  destruct (generateChatCompletion env backend recommend_systemPrompt
              (recommend_userPrompt hook topic) None None log) as [[response|msg] log1];
    cbn -[includes trim]; [|reflexivity].
  destruct (includes frameworks (trim response)); reflexivity.
Qed.


Lemma refine_stage_log (c : M string) (sections : PostSections) log :
  snd (try_catch
         (response <- c ;;
          refined <- lift (JSON_parse response) ;;
          incomplete <- lift (any_missing refined section_keys) ;;
          if incomplete then ret sections else ret (sections_of refined))
         (fun _ => ret sections) log) = snd (c log).
Proof.
  unfold try_catch, bind, lift, ret.
  destruct (c log) as [[resp|msg] log1]; cbn -[any_missing JSON_parse]; [|reflexivity].
  destruct (JSON_parse resp) as [v|msg']; cbn -[any_missing]; [|reflexivity].
  destruct (any_missing v section_keys) as [[|]|msg'']; reflexivity.
Qed.

Lemma refineSingleSection_log env backend k raw hook topic cs log :
  snd (refineSingleSection env backend k raw hook topic cs log) =
  snd (generateChatCompletion env backend single_systemPrompt
         (single_userPrompt k raw hook topic cs) (Some REFINEMENT_MODEL) (Some 0.6%Q) log).
Proof.
  unfold refineSingleSection, try_catch, bind, ret.
  destruct (generateChatCompletion env backend single_systemPrompt
              (single_userPrompt k raw hook topic cs) (Some REFINEMENT_MODEL) (Some 0.6%Q) log)
    as [[r|m] l]; reflexivity.
Qed.

(** C9 (code bug). The temperature argument of [generateChatCompletion]
    is never sent: the result and the requests are the same for every
    temperature, and a request carries only the model (the given one, the
    default when omitted) and the two messages. Hook generation and
    framework recommendation pass neither a model nor a temperature, so
    both send their one request to the default model with the same
    (unsent) default temperature. The model identifier is honoured: the
    voice, logic and single-section refinement stages pass [gpt-5.1] (and
    the temperatures 0.7, 0.5 and 0.6, which are dropped), and their
    request goes to [gpt-5.1]. *)
Theorem completion_temperature_never_sent :
  forall env backend systemPrompt userPrompt model t1 t2 log hook topic userProfile
         sections k raw cs,
    generateChatCompletion env backend systemPrompt userPrompt model t1 log =
      generateChatCompletion env backend systemPrompt userPrompt model t2 log /\
    snd (generateChatCompletion env backend systemPrompt userPrompt model t1 log) =
      (if isOpenAIConfigured env
       then log ++ [mkRequest (match model with Some m => m | None => OPEN_AI_MODEL env end)
                              [("system", systemPrompt); ("user", userPrompt)]]
       else log)%list /\
    snd (generateHooksFromTopic env backend topic userProfile log) =
      (if isOpenAIConfigured env
       then log ++ [mkRequest (OPEN_AI_MODEL env)
                              [("system", hooks_systemPrompt);
                               ("user", hooks_userPrompt topic userProfile)]]
       else log)%list /\
    snd (recommendIntention env backend hook topic log) =
      (if isOpenAIConfigured env
       then log ++ [mkRequest (OPEN_AI_MODEL env)
                              [("system", recommend_systemPrompt);
                               ("user", recommend_userPrompt hook topic)]]
       else log)%list /\
    snd (refinePostVoice env backend sections hook topic log) =
      (if isOpenAIConfigured env
       then log ++ [mkRequest REFINEMENT_MODEL
                              [("system", voice_systemPrompt);
                               ("user", voice_userPrompt sections hook topic)]]
       else log)%list /\
    snd (refinePostLogic env backend sections hook topic log) =
      (if isOpenAIConfigured env
       then log ++ [mkRequest REFINEMENT_MODEL
                              [("system", logic_systemPrompt);
                               ("user", logic_userPrompt sections hook topic)]]
       else log)%list /\
    snd (refineSingleSection env backend k raw hook topic cs log) =
      (if isOpenAIConfigured env
       then log ++ [mkRequest REFINEMENT_MODEL
                              [("system", single_systemPrompt);
                               ("user", single_userPrompt k raw hook topic cs)]]
       else log)%list.
Proof.
  intros env backend systemPrompt userPrompt model t1 t2 log hook topic userProfile
         sections k raw cs.
  split; [reflexivity|].
  rewrite hooks_log, recommend_log, refineSingleSection_log.
  unfold refinePostVoice, refinePostLogic.
  rewrite !refine_stage_log, !completion_log.
  repeat split.
Qed.

(** ** C10: unknown framework labels *)

(** C10 at the label ["constructor"]: the lookup
    [frameworkInstructions[intention]] finds the inherited
    [Object.prototype.constructor], so a non-catalog label still adds a
    structural instruction to the system prompt; an ordinary unknown label
    adds none. Generation goes on in both cases. *)
Theorem frameworkGuidance_inherited_label :
  frameworkGuidance (Some "constructor") =
    newline ++ newline ++ unq "IMPORTANT - Follow this content framework: `constructor`"
    ++ newline ++ "Structure your post sections using this pattern: "
    ++ "function Object() { [native code] }" /\
  frameworkGuidance (Some "Hero's Journey") = "" /\
  is_err (fst (generatePostFromHook env_configured backend_pipeline "h" "t"
                 (Some "constructor") None [])) = false /\
  is_err (fst (generatePostFromHook env_configured backend_pipeline "h" "t"
                 (Some "Hero's Journey") None [])) = false.
Proof. repeat split; vm_compute; reflexivity. Qed.

(** * Further properties of the handlers and services *)

(** ** Helper facts *)

Lemma destructure_ok (body : jsval) (k : string) :
  body <> JNull -> destructure body k = Ok tt.
Proof. destruct body; simpl; congruence. Qed.

Lemma field_obj (body : jsval) (k : string) (v : jsval) :
  field body k = Some v -> body <> JNull.
Proof. destruct body; simpl; congruence. Qed.

Lemma hooks_err_prefix env backend topic userProfile log msg :
  fst (generateHooksFromTopic env backend topic userProfile log) = Err msg ->
  exists rest, msg = "Failed to generate hooks: " ++ rest.
Proof.
  rewrite hooks_result.
  destruct (fst (generateChatCompletion _ _ _ _ _ _ _)) as [response|m];
    [destruct (JSON_parse response) as [[]|m']|]; intros H; inversion H;
    eexists; reflexivity.
Qed.

Lemma recommend_catalog env backend hook topic log :
  exists l, fst (recommendIntention env backend hook topic log) = Ok l /\ In l frameworks.
Proof.
  assert (Hd : In default_framework frameworks) by (simpl; tauto).
  unfold recommendIntention, try_catch, bind, ret.
  destruct (generateChatCompletion env backend recommend_systemPrompt
              (recommend_userPrompt hook topic) None None log) as [[resp|msg] log1];
    cbn -[includes trim frameworks default_framework]; [|eauto].
  destruct (includes frameworks (trim resp)) eqn:I; cbn; [|eauto].
  exists (trim resp). split; [reflexivity|].
  unfold includes in I. apply existsb_exists in I.
  destruct I as [x [Hx Heq]]. apply String.eqb_eq in Heq. subst. exact Hx.
Qed.

Lemma generatePostFromHook_ok_complete env backend hook topic intention userProfile log gp :
  fst (generatePostFromHook env backend hook topic intention userProfile log) = Ok gp ->
  complete_sections (gp_sections gp) = true /\ truthy (gp_design_idea gp) = true.
Proof.
  rewrite generatePostFromHook_unfold.
  destruct (generateChatCompletion env backend (post_systemPrompt intention)
              (post_userPrompt hook topic intention userProfile) None None log)
    as [[response|msg] log1]; [|discriminate].
  destruct (JSON_parse response) as [result|msg]; [|discriminate].
  destruct (any_missing result post_keys) as [[|]|msg] eqn:Em; [discriminate| |discriminate].
  destruct (refinePostVoice env backend (sections_of result) hook topic log1)
    as [[voiceRefined|msg] log2] eqn:E1; [|discriminate].
  destruct (refinePostLogic env backend voiceRefined hook topic log2)
    as [[finalSections|msg] log3] eqn:E2; [|discriminate].
  simpl. intros H. injection H as <-. simpl. split.
  - apply (refinePostLogic_complete env backend voiceRefined hook topic log2);
      [|rewrite E2; reflexivity].
    apply (refinePostVoice_complete env backend (sections_of result) hook topic log1);
      [|rewrite E1; reflexivity].
    apply sections_of_complete. exact (any_missing_app _ _ _ Em).
  - apply (read_truthy result post_keys); [exact Em|].
    unfold post_keys, section_keys. simpl. tauto.
Qed.

(** ** [generateHooks] *)

(** The [generateHooks] handler answers 400 when the [topic] field is
    missing, not a string or blank after trimming, and then makes no
    completion call. *)
Theorem generateHooks_invalid_topic :
  forall env backend supabaseUser body log,
    body <> JNull ->
    bad_string (field body "topic") = true ->
    generateHooks env backend supabaseUser body log =
      (Ok (mkResponse 400 (JObj [("success", JBool false);
                                 ("message", JStr "Topic is required and must be a non-empty string")])),
       log).
Proof.
  intros env backend supabaseUser body log Hb Ht.
  unfold generateHooks, try_catch, bind, lift.
  rewrite (destructure_ok body "topic" Hb), Ht. reflexivity.
Qed.

Lemma generateHooks_invalid_topic_witness :
  generateHooks env_configured backend_down None (JObj [("topic", JStr "   ")]) [] =
    (Ok (mkResponse 400 (JObj [("success", JBool false);
                               ("message", JStr "Topic is required and must be a non-empty string")])),
     []).
Proof. apply generateHooks_invalid_topic; [discriminate | vm_compute; reflexivity]. Defined.

(** For a valid topic, [generateHooks] makes exactly the calls of
    [generateHooksFromTopic] on the trimmed topic and the user's metadata;
    it answers 200 with the hooks and the trimmed topic when generation
    resolves, and otherwise 500 with the service's error message, which
    always starts with ["Failed to generate hooks: "] (so the handler's
    fallback message is never used). *)
Theorem generateHooks_outcome :
  forall env backend supabaseUser body log s,
    field body "topic" = Some (JStr s) ->
    trim s <> "" ->
    snd (generateHooks env backend supabaseUser body log) =
      snd (generateHooksFromTopic env backend (trim s) (opt_prop supabaseUser "user_metadata") log) /\
    match fst (generateHooksFromTopic env backend (trim s)
                 (opt_prop supabaseUser "user_metadata") log) with
    | Ok hooks =>
        fst (generateHooks env backend supabaseUser body log) =
          Ok (mkResponse 200 (JObj [("success", JBool true);
                                    ("data", JObj [("hooks", JArr hooks); ("topic", JStr (trim s))])]))
    | Err msg =>
        fst (generateHooks env backend supabaseUser body log) =
          Ok (mkResponse 500 (JObj [("success", JBool false); ("message", JStr msg)])) /\
        exists rest, msg = "Failed to generate hooks: " ++ rest
    end.
Proof.
  intros env backend supabaseUser body log s Hf Hs.
  pose proof (hooks_err_prefix env backend (trim s) (opt_prop supabaseUser "user_metadata") log) as Hp.
  unfold generateHooks, try_catch, bind, lift.
  rewrite (destructure_ok body "topic" (field_obj body "topic" _ Hf)), Hf.
  cbn [bad_string js_template js_to_string].
  destruct (String.eqb (trim s) "") eqn:E; [apply String.eqb_eq in E; contradiction|].
  destruct (generateHooksFromTopic env backend (trim s) (opt_prop supabaseUser "user_metadata") log)
    as [[hooks|msg] log1]; cbn [fst snd] in *; [split; reflexivity|].
  destruct (Hp msg eq_refl) as [rest ->].
  unfold fail_500, ret. split; [reflexivity|]. split; [reflexivity|eauto].
Qed.

Lemma generateHooks_outcome_witness :
  snd (generateHooks env_configured (backend_reply "[1]") None (JObj [("topic", JStr " ai ")]) []) =
    snd (generateHooksFromTopic env_configured (backend_reply "[1]") "ai" None []) /\
  fst (generateHooks env_configured (backend_reply "[1]") None (JObj [("topic", JStr " ai ")]) []) =
    Ok (mkResponse 200 (JObj [("success", JBool true);
                              ("data", JObj [("hooks", JArr [JNum 1 0]); ("topic", JStr "ai")])])).
Proof.
  pose proof (generateHooks_outcome env_configured (backend_reply "[1]") None
                (JObj [("topic", JStr " ai ")]) [] " ai " eq_refl ltac:(vm_compute; discriminate)) as H.
  vm_compute in H. vm_compute. exact H.
Defined.

(** ** [generatePost] *)

(** The [generatePost] handler refuses a request before any completion
    call: 400 when [hook] or [topic] is missing, not a string or blank,
    and 500 (the [TypeError] of [intention?.trim()]) when both are valid
    but [intention] is a boolean, number, array or object. *)
Theorem generatePost_rejected_before_call :
  forall env backend supabaseUser body log,
    body <> JNull ->
    (bad_string (field body "hook") = true \/ bad_string (field body "topic") = true \/
     match field body "intention" with
     | Some (JBool _ | JNum _ _ | JArr _ | JObj _) => True
     | _ => False
     end) ->
    snd (generatePost env backend supabaseUser body log) = log /\
    exists r, fst (generatePost env backend supabaseUser body log) = Ok r /\
      status r = (if bad_string (field body "hook") || bad_string (field body "topic")
                  then 400 else 500)%Z.
Proof.
  intros env backend supabaseUser body log Hb H.
  unfold generatePost, try_catch, bind, lift.
  rewrite (destructure_ok body "hook" Hb).
  destruct (bad_string (field body "hook")) eqn:Eh; [cbn; eauto|].
  destruct (bad_string (field body "topic")) eqn:Et; [cbn; eauto|].
  destruct H as [H|[H|H]]; try discriminate.
  destruct (field body "intention") as [[]|]; try contradiction; cbn; eauto.
Qed.

Lemma generatePost_rejected_before_call_witness :
  snd (generatePost env_configured backend_pipeline None
         (JObj [("hook", JStr "h"); ("topic", JStr "t"); ("intention", JNum 3 0)]) []) = [] /\
  exists r, fst (generatePost env_configured backend_pipeline None
                   (JObj [("hook", JStr "h"); ("topic", JStr "t"); ("intention", JNum 3 0)]) []) = Ok r /\
    status r = 500%Z.
Proof.
  apply (generatePost_rejected_before_call env_configured backend_pipeline None
           (JObj [("hook", JStr "h"); ("topic", JStr "t"); ("intention", JNum 3 0)]) []);
    [discriminate | right; right; exact I].
Defined.

(** A 200 answer of [generatePost] carries the five sections, all of them
    truthy, a truthy design idea and the trimmed hook. *)
Theorem generatePost_success_shape :
  forall env backend supabaseUser body log r,
    fst (generatePost env backend supabaseUser body log) = Ok r ->
    status r = 200%Z ->
    exists h s d,
      field body "hook" = Some (JStr h) /\
      payload r = JObj [("success", JBool true);
                        ("data", JObj [("sections", sections_to_jsval s); ("design_idea", d);
                                       ("hook", JStr (trim h))])] /\
      complete_sections s = true /\ truthy (Some d) = true.
Proof.
  intros env backend supabaseUser body log r H Hst.
  unfold generatePost, try_catch, bind, lift in H.
  destruct (destructure body "hook") as [[]|m]; cbn [fst] in H;
    [|unfold fail_500, ret in H; injection H as <-; discriminate].
  destruct (bad_string (field body "hook")) eqn:Eh;
    [unfold fail_400, ret in H; injection H as <-; discriminate|].
  destruct (bad_string (field body "topic")) eqn:Et;
    [unfold fail_400, ret in H; injection H as <-; discriminate|].
  destruct (optional_trim (field body "intention") log) as [[its|m] log1];
    cbn [fst] in H; [|unfold fail_500, ret in H; injection H as <-; discriminate].
  destruct (generatePostFromHook env backend (trim (js_template (field body "hook")))
              (trim (js_template (field body "topic"))) its
              (opt_prop supabaseUser "user_metadata") log1) as [[gp|m] log2] eqn:Eg;
    cbn [fst] in H; [|unfold fail_500, ret in H; injection H as <-; discriminate].
  unfold ret in H. injection H as <-.
  assert (Hc := generatePostFromHook_ok_complete env backend _ _ its _ log1 gp
                  ltac:(rewrite Eg; reflexivity)).
  destruct Hc as [Hc Hd].
  destruct (field body "hook") as [[]|] eqn:Ef; try discriminate.
  destruct (gp_design_idea gp) as [d|] eqn:Ed; [|discriminate].
  exists s, (gp_sections gp), d. repeat split; auto.
Qed.

Lemma generatePost_success_shape_witness :
  let run := fst (generatePost env_configured backend_pipeline None
                    (JObj [("hook", JStr " h "); ("topic", JStr "t")]) []) in
  let r := match run with Ok r => r | Err _ => mkResponse 0 JNull end in
  run = Ok r /\ status r = 200%Z /\
  exists h s d,
    field (JObj [("hook", JStr " h "); ("topic", JStr "t")]) "hook" = Some (JStr h) /\
    payload r = JObj [("success", JBool true);
                      ("data", JObj [("sections", sections_to_jsval s); ("design_idea", d);
                                     ("hook", JStr (trim h))])] /\
    complete_sections s = true /\ truthy (Some d) = true.
Proof.
  intros run r.
  assert (E : run = Ok r) by (vm_compute; reflexivity).
  assert (S : status r = 200%Z) by (vm_compute; reflexivity).
  split; [exact E|]. split; [exact S|].
  exact (generatePost_success_shape env_configured backend_pipeline None
           (JObj [("hook", JStr " h "); ("topic", JStr "t")]) [] r E S).
Defined.

(** ** [recommendContentIntention] *)

(** With a valid hook and topic, [recommendContentIntention] always
    answers 200 with a framework of the catalog, whatever the model does
    (also without an API key); with an invalid hook or topic it answers
    400 without any completion call. *)
Theorem recommendContentIntention_outcome :
  forall env backend body log,
    body <> JNull ->
    if bad_string (field body "hook") || bad_string (field body "topic")
    then snd (recommendContentIntention env backend body log) = log /\
         exists r, fst (recommendContentIntention env backend body log) = Ok r /\ status r = 400%Z
    else exists l, In l frameworks /\
         fst (recommendContentIntention env backend body log) =
           Ok (mkResponse 200 (JObj [("success", JBool true); ("intention", JStr l)])).
Proof.
  intros env backend body log Hb.
  unfold recommendContentIntention, try_catch, bind, lift.
  rewrite (destructure_ok body "hook" Hb).
  destruct (bad_string (field body "hook")) eqn:Eh; [cbn; eauto|].
  destruct (bad_string (field body "topic")) eqn:Et; [cbn; eauto|].
  cbn [orb].
  destruct (recommend_catalog env backend (trim (js_template (field body "hook")))
              (trim (js_template (field body "topic"))) log) as [l [El Hl]].
  exists l. split; [exact Hl|].
  destruct (recommendIntention env backend (trim (js_template (field body "hook")))
              (trim (js_template (field body "topic"))) log) as [[l'|m] log1];
    cbn [fst] in El; [|discriminate].
  injection El as ->. reflexivity.
Qed.

Lemma recommendContentIntention_outcome_witness :
  exists l, In l frameworks /\
    fst (recommendContentIntention (mkEnv None None) backend_down
           (JObj [("hook", JStr "h"); ("topic", JStr "t")]) []) =
      Ok (mkResponse 200 (JObj [("success", JBool true); ("intention", JStr l)])).
Proof.
  exact (recommendContentIntention_outcome (mkEnv None None) backend_down
           (JObj [("hook", JStr "h"); ("topic", JStr "t")]) [] ltac:(discriminate)).
Defined.

(** ** [regeneratePostSection] on a valid request *)

Lemma regenerateSection_ok_or_err env backend k h t cs its log :
  match fst (generateChatCompletion env backend (regen_systemPrompt k)
               (regen_userPrompt k h t cs its) None None log) with
  | Ok _ => exists c, fst (regenerateSection env backend k h t cs its log) = Ok c
  | Err msg => fst (regenerateSection env backend k h t cs its log) =
                 Err ("Failed to regenerate section: " ++ msg)
  end.
Proof.
  unfold regenerateSection, refineSingleSection, try_catch, bind, ret, throw.
  destruct (generateChatCompletion env backend (regen_systemPrompt k)
              (regen_userPrompt k h t cs its) None None log) as [[raw|msg] log1];
    cbn [fst]; [|reflexivity].
  destruct (generateChatCompletion env backend single_systemPrompt _ _ _ log1)
    as [[p|m] log2]; cbn [fst]; eauto.
Qed.

(** For a valid request (known section key, non-blank hook and topic,
    sections given as an object or array whose five fields convert to
    strings, intention absent, [null] or a string), [regeneratePostSection]
    answers 200 with the regenerated
    content exactly when the generation call succeeds (a failed polish
    never turns into an error), and otherwise 500 with the prefixed
    completion error. *)
Theorem regeneratePostSection_valid_outcome :
  forall env backend body log k h t cs i its,
    get_prop body "section" = Ok (Some (JStr k)) -> includes validSections k = true ->
    get_prop body "hook" = Ok (Some (JStr h)) -> trim h <> "" ->
    get_prop body "topic" = Ok (Some (JStr t)) -> trim t <> "" ->
    get_prop body "current_sections" = Ok (Some cs) ->
    match cs with JObj _ | JArr _ => True | _ => False end ->
    sections_to_string_throws (sections_of cs) = false ->
    get_prop body "intention" = Ok i ->
    match i with
    | None | Some JNull => its = None
    | Some (JStr x) => its = Some (trim x)
    | Some _ => False
    end ->
    match fst (generateChatCompletion env backend (regen_systemPrompt k)
                 (regen_userPrompt k (trim h) (trim t) (sections_of cs) its) None None log) with
    | Ok _ =>
        exists content,
          fst (regeneratePostSection env backend body log) =
            Ok (mkResponse 200 (JObj [("success", JBool true);
                                      ("data", JObj [("section", JStr k);
                                                     ("content", JStr content)])]))
    | Err msg =>
        fst (regeneratePostSection env backend body log) =
          Ok (mkResponse 500 (JObj [("success", JBool false);
                                    ("message", JStr ("Failed to regenerate section: " ++ msg))]))
    end.
Proof.
  intros env backend body log k h t cs i its Hs Hk Hh Hh' Ht Ht' Hc Hc' Hconv Hi Hi'.
  pose proof (regenerateSection_ok_or_err env backend k (trim h) (trim t) (sections_of cs) its log) as R.
  unfold regeneratePostSection, try_catch, bind, lift.
  rewrite Hs, Hh, Ht, Hc, Hi, Hk.
  cbn [negb bad_string js_template js_to_string].
  destruct (String.eqb (trim h) "") eqn:E1; [apply String.eqb_eq in E1; contradiction|].
  destruct (String.eqb (trim t) "") eqn:E2; [apply String.eqb_eq in E2; contradiction|].
  assert (Hits : forall lg, (match i with
                       | None | Some JNull => ret None
                       | Some (JStr i0) => ret (Some (trim i0))
                       | Some _ => throw "intention.trim is not a function"
                       end : M (option string)) lg = (Ok its, lg)).
  { intros lg. destruct i as [[]|]; try contradiction; subst; reflexivity. }
  destruct cs; try contradiction; rewrite Hits; cbv beta iota; rewrite Hconv;
  destruct (fst (generateChatCompletion env backend (regen_systemPrompt k) _ None None log));
  destruct (regenerateSection env backend k (trim h) (trim t) _ its log) as [[c|m] l2];
  unfold ret; cbn [fst] in R |- *;
  first [ solve [eauto]
        | (destruct R; discriminate)
        | discriminate R
        | (injection R as ->; reflexivity) ].
Qed.

Lemma regeneratePostSection_valid_outcome_witness :
  exists content,
    fst (regeneratePostSection env_configured (backend_reply "A fresh take.")
           (JObj [("section", JStr "cta"); ("hook", JStr "h"); ("topic", JStr "t");
                  ("current_sections", sections_to_jsval sample_sections)]) []) =
      Ok (mkResponse 200 (JObj [("success", JBool true);
                                ("data", JObj [("section", JStr "cta");
                                               ("content", JStr content)])])).
Proof.
  exact (regeneratePostSection_valid_outcome env_configured (backend_reply "A fresh take.")
           (JObj [("section", JStr "cta"); ("hook", JStr "h"); ("topic", JStr "t");
                  ("current_sections", sections_to_jsval sample_sections)]) []
           "cta" "h" "t" (sections_to_jsval sample_sections) None None
           eq_refl eq_refl eq_refl ltac:(vm_compute; discriminate) eq_refl
           ltac:(vm_compute; discriminate) eq_refl I eq_refl eq_refl eq_refl).
Defined.

(** When a field of [current_sections] holds an object with an own
    [toString] key, the user prompt of [regenerateSection] cannot be built:
    [regeneratePostSection] answers 500 with the [TypeError] message, without
    any completion call. *)
Theorem regeneratePostSection_section_to_string_error :
  forall env backend body log k h t cs i,
    get_prop body "section" = Ok (Some (JStr k)) -> includes validSections k = true ->
    get_prop body "hook" = Ok (Some (JStr h)) -> trim h <> "" ->
    get_prop body "topic" = Ok (Some (JStr t)) -> trim t <> "" ->
    get_prop body "current_sections" = Ok (Some cs) ->
    match cs with JObj _ | JArr _ => True | _ => False end ->
    sections_to_string_throws (sections_of cs) = true ->
    get_prop body "intention" = Ok i ->
    match i with None | Some JNull | Some (JStr _) => True | Some _ => False end ->
    regeneratePostSection env backend body log =
      (Ok (mkResponse 500 (JObj [("success", JBool false);
                                 ("message", JStr "Cannot convert object to primitive value")])),
       log).
Proof.
  intros env backend body log k h t cs i Hs Hk Hh Hh' Ht Ht' Hc Hc' Hconv Hi Hi'.
  unfold regeneratePostSection, try_catch, bind, lift.
  rewrite Hs, Hh, Ht, Hc, Hi, Hk.
  cbn [negb bad_string js_template js_to_string].
  destruct (String.eqb (trim h) "") eqn:E1; [apply String.eqb_eq in E1; contradiction|].
  destruct (String.eqb (trim t) "") eqn:E2; [apply String.eqb_eq in E2; contradiction|].
  destruct cs; try contradiction; cbv beta iota;
    (destruct i as [[]|]; try contradiction; cbv beta iota;
     unfold ret, throw; rewrite Hconv; reflexivity).
Qed.

Lemma regeneratePostSection_section_to_string_error_witness :
  regeneratePostSection env_configured (backend_reply "A fresh take.")
    (JObj [("section", JStr "cta"); ("hook", JStr "h"); ("topic", JStr "t");
           ("current_sections", JObj [("intro", JObj [("toString", JNum 1 0)])])]) [] =
    (Ok (mkResponse 500 (JObj [("success", JBool false);
                               ("message", JStr "Cannot convert object to primitive value")])),
     []).
Proof.
  exact (regeneratePostSection_section_to_string_error env_configured (backend_reply "A fresh take.")
           (JObj [("section", JStr "cta"); ("hook", JStr "h"); ("topic", JStr "t");
                  ("current_sections", JObj [("intro", JObj [("toString", JNum 1 0)])])]) []
           "cta" "h" "t" (JObj [("intro", JObj [("toString", JNum 1 0)])]) None
           eq_refl eq_refl eq_refl ltac:(vm_compute; discriminate) eq_refl
           ltac:(vm_compute; discriminate) eq_refl I eq_refl eq_refl I).
Defined.

(** ** The completion client *)

Lemma completion_unconfigured env backend sp up model t log :
  isOpenAIConfigured env = false ->
  generateChatCompletion env backend sp up model t log =
    (Err "OpenAI completion failed: OpenAI API key not configured", log).
Proof.
  intros H. unfold generateChatCompletion, try_catch, throw. rewrite H. reflexivity.
Qed.

(** Without an API key nothing is sent to the provider: the completion
    client, the hook generator and the post generator fail with the
    prefixed "not configured" error, while the recommender still resolves
    with the default framework. *)
Theorem no_api_key_behaviour :
  forall env backend sp up model t hook topic intention userProfile log,
    isOpenAIConfigured env = false ->
    generateChatCompletion env backend sp up model t log =
      (Err "OpenAI completion failed: OpenAI API key not configured", log) /\
    generateHooksFromTopic env backend topic userProfile log =
      (Err "Failed to generate hooks: OpenAI completion failed: OpenAI API key not configured", log) /\
    generatePostFromHook env backend hook topic intention userProfile log =
      (Err "Failed to generate post: OpenAI completion failed: OpenAI API key not configured", log) /\
    recommendIntention env backend hook topic log = (Ok default_framework, log).
Proof.
  intros env backend sp up model t hook topic intention userProfile log H.
  split; [apply completion_unconfigured; exact H|].
  split; [|split].
  - unfold generateHooksFromTopic, try_catch, bind, throw.
    rewrite completion_unconfigured by exact H. reflexivity.
  - rewrite generatePostFromHook_unfold, completion_unconfigured by exact H. reflexivity.
  - unfold recommendIntention, try_catch, bind, ret.
    rewrite completion_unconfigured by exact H. reflexivity.
Qed.

Lemma no_api_key_behaviour_witness :
  recommendIntention (mkEnv None (Some "gpt-4o")) backend_down "h" "t" [] =
    (Ok default_framework, []).
Proof.
  exact (proj2 (proj2 (proj2 (no_api_key_behaviour (mkEnv None (Some "gpt-4o")) backend_down
                                "s" "u" None None "h" "t" None None [] eq_refl)))).
Defined.

(** Every failure of [generateChatCompletion] carries a message starting
    with ["OpenAI completion failed: "]; it resolves only when the key is
    configured and the provider returned a non-empty content, and then with
    that content trimmed (an all-whitespace content resolves with the empty
    string). *)
Theorem completion_result :
  forall env backend systemPrompt userPrompt model t log,
    let req := mkRequest (match model with Some m => m | None => OPEN_AI_MODEL env end)
                         [("system", systemPrompt); ("user", userPrompt)] in
    (forall msg, fst (generateChatCompletion env backend systemPrompt userPrompt model t log) = Err msg ->
       exists rest, msg = "OpenAI completion failed: " ++ rest) /\
    (forall c, fst (generateChatCompletion env backend systemPrompt userPrompt model t log) = Ok c ->
       isOpenAIConfigured env = true /\
       exists raw, backend log req = Reply (Some raw) /\ raw <> "" /\ c = trim raw).
Proof.
  intros env backend systemPrompt userPrompt model t log req.
  unfold generateChatCompletion, try_catch, bind, throw, ret, call_api.
  destruct (isOpenAIConfigured env) eqn:Ec; cbn [negb].
  - fold req. destruct (backend log req) as [[c|]|msg] eqn:Eb; cbn [fst str_truthy].
    + destruct (String.eqb c "") eqn:Ee; cbn [negb fst].
      * split; [intros msg Hm; injection Hm as <-; eexists; reflexivity | discriminate].
      * split; [discriminate|]. intros c' Hc. injection Hc as <-.
        split; [reflexivity|]. exists c. split; [reflexivity|].
        split; [intros ->; discriminate | reflexivity].
    + split; [intros msg Hm; injection Hm as <-; eexists; reflexivity | discriminate].
    + split; [intros m Hm; injection Hm as <-; eexists; reflexivity | discriminate].
  - split; [intros msg Hm; injection Hm as <-; eexists; reflexivity | discriminate].
Qed.

Lemma completion_result_witness :
  isOpenAIConfigured env_configured = true /\
  exists raw, backend_reply "   " [] (mkRequest "gpt-5-2025-08-07" [("system", "s"); ("user", "u")])
                = Reply (Some raw) /\ raw <> "" /\ "" = trim raw.
Proof.
  exact (proj2 (completion_result env_configured (backend_reply "   ") "s" "u" None None [])
           "" eq_refl).
Defined.

(** ** Requests made by [generatePostFromHook] *)


(** [generatePostFromHook] sends no request without an API key; with one,
    it sends one request to the default model and, exactly when the base
    answer parses to an object with all six keys truthy, two more to
    [gpt-5.1] (voice, then logic); nothing else. *)
Theorem generatePostFromHook_requests :
  forall env backend hook topic intention userProfile log,
    map rq_model (snd (generatePostFromHook env backend hook topic intention userProfile log)) =
    (map rq_model log ++
    (if isOpenAIConfigured env then
       OPEN_AI_MODEL env ::
       match fst (generateChatCompletion env backend (post_systemPrompt intention)
                    (post_userPrompt hook topic intention userProfile) None None log) with
       | Ok response =>
           match JSON_parse response with
           | Ok result =>
               match any_missing result post_keys with
               | Ok false => [REFINEMENT_MODEL; REFINEMENT_MODEL]
               | _ => []
               end
           | Err _ => []
           end
       | Err _ => []
       end
     else []))%list.
Proof.
  intros env backend hook topic intention userProfile log.
  rewrite generatePostFromHook_unfold.
  pose proof (completion_log env backend (post_systemPrompt intention)
                (post_userPrompt hook topic intention userProfile) None None log) as L0.
  destruct (isOpenAIConfigured env) eqn:Ec.
  - destruct (generateChatCompletion env backend (post_systemPrompt intention)
                (post_userPrompt hook topic intention userProfile) None None log)
      as [[response|msg] log1]; cbn [snd fst] in L0 |- *; subst log1;
      [|rewrite map_app; reflexivity].
    destruct (JSON_parse response) as [result|m]; [|cbn [snd]; rewrite map_app; reflexivity].
    destruct (any_missing result post_keys) as [[|]|m];
      [cbn [snd]; rewrite map_app; reflexivity| |cbn [snd]; rewrite map_app; reflexivity].
    destruct (refinePostVoice_total env backend (sections_of result) hook topic
                (log ++ [mkRequest (OPEN_AI_MODEL env)
                           [("system", post_systemPrompt intention);
                            ("user", post_userPrompt hook topic intention userProfile)]]))
      as [v [log2 E1]].
    pose proof (refine_stage_log
                  (generateChatCompletion env backend voice_systemPrompt
                     (voice_userPrompt (sections_of result) hook topic)
                     (Some REFINEMENT_MODEL) (Some 0.7%Q)) (sections_of result)
                  (log ++ [mkRequest (OPEN_AI_MODEL env)
                             [("system", post_systemPrompt intention);
                              ("user", post_userPrompt hook topic intention userProfile)]])) as L1.
    fold (refinePostVoice env backend (sections_of result) hook topic) in L1.
    rewrite E1, completion_log, Ec in L1. cbn [snd] in L1. rewrite E1.
    destruct (refinePostLogic_total env backend v hook topic log2) as [w [log3 E2]].
    pose proof (refine_stage_log
                  (generateChatCompletion env backend logic_systemPrompt
                     (logic_userPrompt v hook topic)
                     (Some REFINEMENT_MODEL) (Some 0.5%Q)) v log2) as L2.
    fold (refinePostLogic env backend v hook topic) in L2.
    rewrite E2, completion_log, Ec in L2. cbn [snd] in L2. rewrite E2.
    cbn [snd]. rewrite L2, L1, !map_app. simpl. rewrite <- !List.app_assoc. reflexivity.
  - rewrite completion_unconfigured by exact Ec. cbn [snd]. rewrite app_nil_r. reflexivity.
Qed.

(** ** Recommended frameworks and the post prompt *)

(** Every framework [recommendIntention] can resolve with has its own,
    non-empty structural instruction in [frameworkInstructions], which
    [frameworkGuidance] adds to the post system prompt. *)
Theorem recommended_framework_has_guidance :
  forall env backend hook topic log l,
    fst (recommendIntention env backend hook topic log) = Ok l ->
    exists instr, assoc_str l frameworkInstructions = Some instr /\ instr <> "" /\
      frameworkGuidance (Some l) =
        newline ++ newline ++ unq "IMPORTANT - Follow this content framework: `" ++ l ++ unq "`"
        ++ newline ++ "Structure your post sections using this pattern: " ++ instr.
Proof.
  intros env backend hook topic log l H.
  destruct (recommend_catalog env backend hook topic log) as [l' [E Hin]].
  rewrite H in E. injection E as <-.
  simpl in Hin.
  repeat (destruct Hin as [<-|Hin];
          [eexists; split; [reflexivity|]; split; [discriminate|reflexivity]|]).
  contradiction.
Qed.

Lemma recommended_framework_has_guidance_witness :
  exists instr, assoc_str "Before → After → Lesson" frameworkInstructions = Some instr /\ instr <> "" /\
    frameworkGuidance (Some "Before → After → Lesson") =
      newline ++ newline ++ unq "IMPORTANT - Follow this content framework: `"
      ++ "Before → After → Lesson" ++ unq "`"
      ++ newline ++ "Structure your post sections using this pattern: " ++ instr.
Proof.
  exact (recommended_framework_has_guidance env_configured
           (backend_reply " Before → After → Lesson ") "h" "t" []
           "Before → After → Lesson" ltac:(vm_compute; reflexivity)).
Defined.

(** ** LinkedIn publishing *)

Lemma getLinkedInUserUrn_eq http token log :
  getLinkedInUserUrn http token log =
  (match http log (userinfo_request token) with
   | HttpResponse st hs d =>
       if ok_status st then
         match read_sub d with
         | Ok p => if prop_read_truthy p then
                     match prop_read_template p with
                     | Ok u => LOk ("urn:li:person:" ++ u)
                     | Err m => LErr (mkJsError ("Failed to get LinkedIn user info: " ++ m) None)
                     end
                   else LErr (mkJsError ("Failed to get LinkedIn user info: "
                                         ++ "Could not retrieve LinkedIn user ID") None)
         | Err m => LErr (mkJsError ("Failed to get LinkedIn user info: " ++ m) None)
         end
       else if Z.eqb st 401
       then LErr (mkJsError "LinkedIn access token is invalid or expired. Please sign in again." None)
       else LErr (mkJsError ("Failed to get LinkedIn user info: Request failed with status code "
                             ++ decimal st) None)
   | HttpNetworkError m => LErr (mkJsError ("Failed to get LinkedIn user info: " ++ m) None)
   end, (log ++ [EHttp (userinfo_request token)])%list).
Proof.
  unfold getLinkedInUserUrn, ltry, lbind, llift, lthrow, lret, axios_request, ok_status.
  destruct (http log (userinfo_request token)) as [st hs d|m]; [|reflexivity].
  destruct ((200 <=? st)%Z && (st <? 300)%Z)%bool; cbn [ar_data err_response err_message].
  - destruct (read_sub d) as [p|m]; [|reflexivity].
    destruct (prop_read_truthy p); [|reflexivity].
    destruct (prop_read_template p); reflexivity.
  - destruct (Z.eqb st 401); reflexivity.
Qed.

Lemma publishToLinkedIn_eq http token text log :
  publishToLinkedIn http token text log =
  match getLinkedInUserUrn http token log with
  | (LErr e, log1) => (LOk (mkPublishResult false None None (Some (publish_error e))), log1)
  | (LOk urn, log1) =>
      let log2 := (log1 ++ [EHttp (posts_request token urn text)])%list in
      match http log1 (posts_request token urn text) with
      | HttpResponse st hs d =>
          if ok_status st then
            let postId := assoc_str "x-restli-id" hs in
            (LOk (mkPublishResult true (if str_truthy postId then postId else None)
                    (match postId with
                     | Some p => if str_truthy postId
                                 then Some (LINKEDIN_FEED_URL ++ encodeURIComponent p) else None
                     | None => None
                     end) None), log2)
          else (LOk (mkPublishResult false None None
                       (Some (publish_error (mkJsError ("Request failed with status code " ++ decimal st)
                                               (Some (st, d)))))), log2)
      | HttpNetworkError m =>
          (LOk (mkPublishResult false None None (Some (publish_error (mkJsError m None)))), log2)
      end
  end.
Proof.
  unfold publishToLinkedIn, ltry, lbind, lret.
  destruct (getLinkedInUserUrn http token log) as [[urn|e] log1]; [|reflexivity].
  unfold axios_request, ok_status.
  destruct (http log1 (posts_request token urn text)) as [st hs d|m]; [|reflexivity].
  destruct ((200 <=? st)%Z && (st <? 300)%Z)%bool; reflexivity.
Qed.

Lemma or_else_truthy v d : truthy (Some d) = true -> truthy (Some (or_else v d)) = true.
Proof.
  intros Hd. destruct v as [w|]; unfold or_else; [|exact Hd].
  destruct (truthy (Some w)) eqn:E; [exact E|exact Hd].
Qed.

Lemma publish_error_truthy e : truthy (Some (publish_error e)) = true.
Proof.
  unfold publish_error.
  assert (Hf : truthy (Some (or_else (opt_prop (option_map snd (err_response e)) "message")
             (if String.eqb (err_message e) "" then JStr "Failed to publish to LinkedIn"
              else JStr (err_message e)))) = true).
  { apply or_else_truthy. destruct (String.eqb (err_message e) "") eqn:E; simpl; [reflexivity|].
    rewrite E. reflexivity. }
  destruct (err_response e) as [[st d]|]; [|exact Hf].
  destruct (Z.eqb st 401); [reflexivity|].
  destruct (Z.eqb st 403); [reflexivity|].
  destruct (Z.eqb st 422); [apply or_else_truthy; reflexivity|].
  destruct (Z.eqb st 429); [reflexivity|exact Hf].
Qed.

(** [publishToLinkedIn] never rejects, whatever the HTTP layer answers:
    it resolves with a result that, on success, has no error and, on
    failure, has no post id or URL and a truthy error value. *)
Theorem publishToLinkedIn_never_rejects :
  forall http token text log,
    exists r, fst (publishToLinkedIn http token text log) = LOk r /\
      if pr_success r then pr_error r = None
      else pr_postId r = None /\ pr_postUrl r = None /\
           exists e, pr_error r = Some e /\ truthy (Some e) = true.
Proof.
  intros http token text log. rewrite publishToLinkedIn_eq.
  destruct (getLinkedInUserUrn http token log) as [[urn|e] log1].
  - destruct (http log1 (posts_request token urn text)) as [st hs d|m].
    + destruct (ok_status st); cbn [fst]; eexists; (split; [reflexivity|]); cbn [pr_success pr_error pr_postId pr_postUrl];
        [reflexivity|repeat split; eexists; split; [reflexivity|apply publish_error_truthy]].
    + cbn [fst]; eexists; (split; [reflexivity|]); cbn [pr_success pr_error pr_postId pr_postUrl].
      repeat split; eexists; split; [reflexivity|apply publish_error_truthy].
  - cbn [fst]; eexists; (split; [reflexivity|]); cbn [pr_success pr_error pr_postId pr_postUrl].
    repeat split; eexists; split; [reflexivity|apply publish_error_truthy].
Qed.

Lemma publish_error_plain msg :
  msg <> "" -> publish_error (mkJsError msg None) = JStr msg.
Proof.
  intros H. unfold publish_error. cbn.
  destruct (String.eqb msg "") eqn:E; [apply String.eqb_eq in E; contradiction|reflexivity].
Qed.

(** A non-2xx answer to the userinfo request stops [publishToLinkedIn]
    before the post request: only the userinfo request is logged, and the
    error is the expired-token message for 401 and otherwise the axios
    message prefixed with ["Failed to get LinkedIn user info: "]. *)
Theorem userinfo_failure_no_post :
  forall http token text log st hs d,
    http log (userinfo_request token) = HttpResponse st hs d ->
    ok_status st = false ->
    publishToLinkedIn http token text log =
      (LOk (mkPublishResult false None None
              (Some (JStr (if Z.eqb st 401
                           then "LinkedIn access token is invalid or expired. Please sign in again."
                           else "Failed to get LinkedIn user info: Request failed with status code "
                                ++ decimal st)))),
       (log ++ [EHttp (userinfo_request token)])%list).
Proof.
  intros http token text log st hs d Hh Hs.
  rewrite publishToLinkedIn_eq, getLinkedInUserUrn_eq, Hh, Hs.
  destruct (Z.eqb st 401); rewrite publish_error_plain by discriminate; reflexivity.
Qed.

(** A 401 from the userinfo request, or from the post request after a
    successful userinfo lookup (a 2xx answer whose [sub] is truthy and
    converts to a string), yields the expired-token failure. *)
Theorem unauthorized_on_either_call :
  forall http token text log st hs d p u hs' d',
    (http log (userinfo_request token) = HttpResponse 401 hs d \/
     (http log (userinfo_request token) = HttpResponse st hs d /\ ok_status st = true /\
      read_sub d = Ok p /\ prop_read_truthy p = true /\ prop_read_template p = Ok u /\
      http (log ++ [EHttp (userinfo_request token)])%list
           (posts_request token ("urn:li:person:" ++ u) text)
        = HttpResponse 401 hs' d')) ->
    fst (publishToLinkedIn http token text log) =
      LOk (mkPublishResult false None None
             (Some (JStr "LinkedIn access token is invalid or expired. Please sign in again."))).
Proof.
  intros http token text log st hs d p u hs' d' [H|[H [S [Hp [Ht [Hu H']]]]]];
    rewrite publishToLinkedIn_eq, getLinkedInUserUrn_eq, H.
  - reflexivity.
  - rewrite S, Hp, Ht, Hu. cbv beta iota zeta. rewrite H'. reflexivity.
Qed.

Lemma hex_upper_unreserved a : a < 16 -> uri_unreserved (hex_upper a) = true.
Proof. intros H. do 16 (destruct a as [|a]; [reflexivity|]). lia. Qed.

Lemma hex_upper_inj a b : a < 16 -> b < 16 -> hex_upper a = hex_upper b -> a = b.
Proof.
  intros Ha Hb.
  do 16 (destruct a as [|a];
         [do 16 (destruct b as [|b]; [intros E; vm_compute in E; first [reflexivity | discriminate E]|]);
          lia|]).
  lia.
Qed.

Lemma percent_reserved : uri_unreserved (char_of 37) = false.
Proof. reflexivity. Qed.

Lemma encode_aux_inj l1 l2 : encode_aux l1 = encode_aux l2 -> l1 = l2.
Proof.
  revert l2. induction l1 as [|c1 r1 IH]; intros [|c2 r2]; cbn [encode_aux].
  - reflexivity.
  - destruct (uri_unreserved c2); discriminate.
  - destruct (uri_unreserved c1); discriminate.
  - assert (B1 := nat_ascii_bounded c1). assert (B2 := nat_ascii_bounded c2).
    assert (Q1 : nat_of_ascii c1 / 16 < 16) by (apply Nat.Div0.div_lt_upper_bound; lia).
    assert (Q2 : nat_of_ascii c2 / 16 < 16) by (apply Nat.Div0.div_lt_upper_bound; lia).
    assert (R1 : nat_of_ascii c1 mod 16 < 16) by (apply Nat.mod_upper_bound; lia).
    assert (R2 : nat_of_ascii c2 mod 16 < 16) by (apply Nat.mod_upper_bound; lia).
    assert (D1 := Nat.div_mod_eq (nat_of_ascii c1) 16).
    assert (D2 := Nat.div_mod_eq (nat_of_ascii c2) 16).
    remember (nat_of_ascii c1 / 16) as q1. remember (nat_of_ascii c2 / 16) as q2.
    remember (nat_of_ascii c1 mod 16) as m1. remember (nat_of_ascii c2 mod 16) as m2.
    destruct (uri_unreserved c1) eqn:U1, (uri_unreserved c2) eqn:U2; intros H;
      injection H; clear H.
    + intros Hr ->. f_equal. exact (IH _ Hr).
    + intros _ ->. rewrite percent_reserved in U1. discriminate.
    + intros _ <-. rewrite percent_reserved in U2. discriminate.
    + intros Hr Hlo Hhi.
      apply hex_upper_inj in Hhi; [|exact Q1|exact Q2].
      apply hex_upper_inj in Hlo; [|exact R1|exact R2].
      f_equal; [|exact (IH _ Hr)].
      rewrite <- (ascii_nat_embedding c1), <- (ascii_nat_embedding c2). f_equal.
      rewrite D1, D2, Hhi, Hlo. reflexivity.
Qed.

(** [encodeURIComponent] is injective on byte strings, so distinct post
    ids give distinct feed URLs. *)
Theorem encodeURIComponent_injective :
  forall s1 s2, encodeURIComponent s1 = encodeURIComponent s2 -> s1 = s2.
Proof.
  intros s1 s2 H. unfold encodeURIComponent in H.
  apply (f_equal list_ascii_of_string) in H.
  rewrite !list_ascii_of_string_of_list_ascii in H.
  apply encode_aux_inj in H.
  rewrite <- (string_of_list_ascii_of_string s1), <- (string_of_list_ascii_of_string s2), H.
  reflexivity.
Qed.

(** The output of [encodeURIComponent] consists only of unreserved
    characters and [%]. *)
Theorem encodeURIComponent_alphabet :
  forall s, forallb (fun c => uri_unreserved c || is_char c 37)
              (list_ascii_of_string (encodeURIComponent s)) = true.
Proof.
  intros s. unfold encodeURIComponent. rewrite list_ascii_of_string_of_list_ascii.
  induction (list_ascii_of_string s) as [|c r IH]; cbn [encode_aux]; [reflexivity|].
  assert (B := nat_ascii_bounded c).
  destruct (uri_unreserved c) eqn:U; cbn [forallb]; rewrite ?U; cbn [orb andb]; [exact IH|].
  rewrite hex_upper_unreserved by (apply Nat.Div0.div_lt_upper_bound; lia).
  rewrite hex_upper_unreserved by (apply Nat.mod_upper_bound; lia).
  exact IH.
Qed.

Lemma publishToLinkedIn_ok http token text log :
  exists r, fst (publishToLinkedIn http token text log) = LOk r /\
    (forall p, pr_postId r = Some p -> p <> "") /\
    (pr_success r = false -> pr_postId r = None /\ pr_postUrl r = None /\
                             exists e, pr_error r = Some e /\ truthy (Some e) = true).
Proof.
  rewrite publishToLinkedIn_eq.
  destruct (getLinkedInUserUrn http token log) as [[urn|e] log1].
  - destruct (http log1 (posts_request token urn text)) as [st hs d|m].
    + destruct (ok_status st); cbn [fst]; eexists; (split; [reflexivity|]);
        cbn [pr_success pr_error pr_postId pr_postUrl].
      * split; [|discriminate].
        destruct (assoc_str "x-restli-id" hs) as [p|]; cbn [str_truthy]; [|discriminate].
        destruct (String.eqb p "") eqn:E; cbn [negb]; [discriminate|].
        intros p' Hp. injection Hp as <-. intros ->. discriminate.
      * split; [discriminate|]. intros _. repeat split.
        eexists; split; [reflexivity|apply publish_error_truthy].
    + cbn [fst]; eexists; (split; [reflexivity|]); cbn [pr_success pr_error pr_postId pr_postUrl].
      split; [discriminate|]. intros _. repeat split.
      eexists; split; [reflexivity|apply publish_error_truthy].
  - cbn [fst]; eexists; (split; [reflexivity|]); cbn [pr_success pr_error pr_postId pr_postUrl].
    split; [discriminate|]. intros _. repeat split.
    eexists; split; [reflexivity|apply publish_error_truthy].
Qed.

Lemma db_update_logged_eq db c log :
  db_update_logged db c log = (LOk tt, (log ++ [EDb c])%list).
Proof. unfold db_update_logged, ltry, db_update, lret. destruct (db log c); reflexivity. Qed.

(** A missing or non-string post text, an empty or non-string token, a
    user without a truthy id or a text longer than 3000 UTF-16 units is
    answered with 400 or 401 before any HTTP or database call. *)
Theorem publishLinkedInPost_validation :
  forall http db supabaseUser body log,
    body <> JNull ->
    (bad_string (field body "post_text") = true \/
     match field body "linkedin_token" with Some (JStr t) => t = "" | _ => True end \/
     truthy (opt_prop supabaseUser "id") = false \/
     (exists s, field body "post_text" = Some (JStr s) /\
                3000 < utf16_length (list_ascii_of_string s))) ->
    snd (publishLinkedInPost http db supabaseUser body log) = log /\
    exists r, fst (publishLinkedInPost http db supabaseUser body log) = LOk r /\
              (status r = 400%Z \/ status r = 401%Z).
Proof.
  intros http db supabaseUser body log Hb H.
  unfold publishLinkedInPost, ltry, lbind, llift.
  rewrite (destructure_ok body "post_text" Hb).
  destruct (bad_string (field body "post_text")) eqn:Ep; [cbn; eauto|].
  destruct (field body "linkedin_token") as [[| | | t | |]|]; try (cbn; eauto; fail).
  destruct (String.eqb t "") eqn:Et; [cbn; eauto|].
  destruct (truthy (opt_prop supabaseUser "id")) eqn:Eu; [|cbn; eauto].
  destruct (Nat.ltb 3000 (utf16_length (list_ascii_of_string (js_template (field body "post_text")))))
    eqn:El; [cbn; eauto|].
  exfalso. destruct H as [H|[H|[H|[s [Hs Hl]]]]].
  - congruence.
  - subst t. discriminate.
  - congruence.
  - rewrite Hs in El. cbn [js_template js_to_string] in El.
    apply Nat.ltb_ge in El. lia.
Qed.

(** For a non-null body, [publishLinkedInPost] always resolves with
    status 200, 400 or 401: the outer 500 handler is unreachable. *)
Theorem publishLinkedInPost_never_500 :
  forall http db supabaseUser body log,
    body <> JNull ->
    exists r, fst (publishLinkedInPost http db supabaseUser body log) = LOk r /\
      (status r = 200%Z \/ status r = 400%Z \/ status r = 401%Z).
Proof.
  intros http db supabaseUser body log Hb.
  unfold publishLinkedInPost, ltry, lbind, llift.
  rewrite (destructure_ok body "post_text" Hb).
  destruct (bad_string (field body "post_text")) eqn:Ep; [cbn; eauto|].
  destruct (field body "linkedin_token") as [[| | | t | |]|]; try (cbn; eauto; fail).
  destruct (String.eqb t "") eqn:Et; [cbn; eauto|].
  destruct (truthy (opt_prop supabaseUser "id")) eqn:Eu; [|cbn; eauto].
  destruct (Nat.ltb 3000 (utf16_length (list_ascii_of_string (js_template (field body "post_text")))))
    eqn:El; [cbn; eauto|].
  cbv beta iota delta [negb].
  destruct (publishToLinkedIn_ok http t (trim (js_template (field body "post_text"))) log)
    as [pr [Epr _]].
  destruct (publishToLinkedIn http t (trim (js_template (field body "post_text"))) log)
    as [[pr'|e] log1]; cbn [fst] in Epr; [injection Epr as ->|discriminate].
  destruct (pr_success pr); [|cbn; eauto].
  cbv beta iota delta [negb].
  destruct (field body "generated_post_id") as [g|];
    [destruct (truthy (Some g)); [destruct (pr_postId pr) as [p|];
                                  [destruct (str_truthy (Some p))|]|]|];
    rewrite ?db_update_logged_eq; cbn; eauto.
Qed.

Lemma publishToLinkedIn_log http token text log :
  exists pre, snd (publishToLinkedIn http token text log) = (log ++ pre)%list /\ db_calls pre = [].
Proof.
  rewrite publishToLinkedIn_eq, getLinkedInUserUrn_eq.
  destruct (http log (userinfo_request token)) as [st hs d|m].
  - destruct (ok_status st).
    + destruct (read_sub d) as [p|m].
      * destruct (prop_read_truthy p).
        -- destruct (prop_read_template p) as [u|m]; [|cbn [snd]; eexists; split; reflexivity].
           cbv zeta.
           destruct (http _ (posts_request token _ text)) as [st2 hs2 d2|m2];
             [destruct (ok_status st2)|]; cbn [snd];
             eexists; rewrite <- List.app_assoc; split; reflexivity.
        -- cbn [snd]. eexists; split; reflexivity.
      * cbn [snd]. eexists; split; reflexivity.
    + destruct (Z.eqb st 401); cbn [snd]; eexists; split; reflexivity.
  - cbn [snd]. eexists; split; reflexivity.
Qed.

(** Database failures are swallowed: the response and the log of
    [publishLinkedInPost] do not depend on what the database answers. *)
Theorem publishLinkedInPost_db_outcome_irrelevant :
  forall http db1 db2 supabaseUser body log,
    publishLinkedInPost http db1 supabaseUser body log =
    publishLinkedInPost http db2 supabaseUser body log.
Proof.
  intros http db1 db2 supabaseUser body log.
  unfold publishLinkedInPost, ltry, lbind, llift.
  destruct (destructure body "post_text") as [[]|m]; [|reflexivity].
  destruct (bad_string (field body "post_text")); [reflexivity|].
  destruct (field body "linkedin_token") as [[| | | t | |]|]; try reflexivity.
  destruct (String.eqb t ""); [reflexivity|].
  destruct (truthy (opt_prop supabaseUser "id")); [|reflexivity].
  destruct (Nat.ltb 3000 (utf16_length (list_ascii_of_string (js_template (field body "post_text")))));
    [reflexivity|].
  cbv beta iota delta [negb].
  destruct (publishToLinkedIn http t (trim (js_template (field body "post_text"))) log)
    as [[pr|e] log1]; [|reflexivity].
  destruct (pr_success pr); [|reflexivity].
  cbv beta iota delta [negb].
  destruct (field body "generated_post_id") as [g|];
    [destruct (truthy (Some g)); [destruct (pr_postId pr) as [p|];
                                  [destruct (str_truthy (Some p))|]|]|];
    rewrite ?db_update_logged_eq; reflexivity.
Qed.

(** [publishLinkedInPost] only appends to the log, and the database calls
    it makes are: none unless the answer is 200 with a truthy
    [generated_post_id]; then the LinkedIn metadata update when the answer
    carries a post id, else the status update to 2. *)
Theorem publishLinkedInPost_db_calls :
  forall http db supabaseUser body log r log',
    publishLinkedInPost http db supabaseUser body log = (LOk r, log') ->
    exists suffix, log' = (log ++ suffix)%list /\
      db_calls suffix =
        if Z.eqb (status r) 200 then
          match field body "generated_post_id" with
          | Some g =>
              if truthy (Some g) then
                let uid := match opt_prop supabaseUser "id" with Some u => u | None => JNull end in
                match response_data_string r "linkedin_post_id" with
                | Some pid =>
                    [UpdatePostLinkedInMetadata g uid pid
                       (match response_data_string r "linkedin_post_url" with
                        | Some u => u | None => "" end)]
                | None => [UpdatePostStatusInDb g uid 2]
                end
              else []
          | None => []
          end
        else [].
Proof.
  intros http db supabaseUser body log r log' H.
  unfold publishLinkedInPost, ltry, lbind, llift in H.
  destruct (destructure body "post_text") as [[]|m];
    [|injection H as <- <-; exists []; rewrite app_nil_r; split; reflexivity].
  destruct (bad_string (field body "post_text"));
    [injection H as <- <-; exists []; rewrite app_nil_r; split; reflexivity|].
  destruct (field body "linkedin_token") as [[| | | t | |]|];
    try (injection H as <- <-; exists []; rewrite app_nil_r; split; reflexivity).
  destruct (String.eqb t "");
    [injection H as <- <-; exists []; rewrite app_nil_r; split; reflexivity|].
  destruct (truthy (opt_prop supabaseUser "id"));
    [|injection H as <- <-; exists []; rewrite app_nil_r; split; reflexivity].
  destruct (Nat.ltb 3000 (utf16_length (list_ascii_of_string (js_template (field body "post_text")))));
    [injection H as <- <-; exists []; rewrite app_nil_r; split; reflexivity|].
  cbv beta iota delta [negb] in H.
  destruct (publishToLinkedIn_ok http t (trim (js_template (field body "post_text"))) log)
    as [pr [Epr [Hpid _]]].
  destruct (publishToLinkedIn_log http t (trim (js_template (field body "post_text"))) log)
    as [pre [Epre Hpre]].
  destruct (publishToLinkedIn http t (trim (js_template (field body "post_text"))) log)
    as [[pr'|e] log1]; cbn [fst] in Epr; [injection Epr as ->|discriminate].
  cbn [snd] in Epre. subst log1.
  destruct (pr_success pr);
    [|injection H as <- <-; exists pre; split; [reflexivity|exact Hpre]].
  cbv beta iota delta [negb] in H.
  destruct (field body "generated_post_id") as [g|].
  - destruct (truthy (Some g)) eqn:Eg.
    + destruct (pr_postId pr) as [p|] eqn:Ep.
      * assert (Hp : str_truthy (Some p) = true).
        { cbn. destruct (String.eqb p "") eqn:E; [|reflexivity].
          apply String.eqb_eq in E. exfalso. exact (Hpid p eq_refl E). }
        rewrite Hp, db_update_logged_eq in H. injection H as <- <-.
        exists (pre ++ [EDb (UpdatePostLinkedInMetadata g
                               match opt_prop supabaseUser "id" with Some u => u | None => JNull end
                               p match pr_postUrl pr with Some u => u | None => "" end)])%list.
        rewrite List.app_assoc. split; [reflexivity|].
        unfold db_calls. rewrite flat_map_app. fold (db_calls pre). rewrite Hpre.
        unfold response_data_string. cbn [status payload opt_prop assoc_last].
        destruct (pr_postUrl pr) as [u|]; cbn; rewrite ?Eg; reflexivity.
      * rewrite db_update_logged_eq in H. injection H as <- <-.
        exists (pre ++ [EDb (UpdatePostStatusInDb g
                               match opt_prop supabaseUser "id" with Some u => u | None => JNull end
                               2)])%list.
        rewrite List.app_assoc. split; [reflexivity|].
        unfold db_calls. rewrite flat_map_app. fold (db_calls pre). rewrite Hpre.
        unfold response_data_string. cbn [status payload opt_prop assoc_last].
        destruct (pr_postUrl pr) as [u|]; cbn; rewrite ?Eg; reflexivity.
    + unfold lret in H. injection H as <- <-. exists pre. split; [reflexivity|].
      rewrite Hpre. cbn; rewrite ?Eg; reflexivity.
  - unfold lret in H. injection H as <- <-. exists pre. split; [reflexivity|].
    rewrite Hpre. reflexivity.
Qed.

(** When both requests succeed, [publishToLinkedIn] logs exactly the two
    requests and succeeds; the post id is the non-empty [x-restli-id]
    header and the URL is the feed URL with the encoded id. *)
Theorem publishToLinkedIn_success :
  forall http token text log st hs d p u st2 hs2 d2,
    http log (userinfo_request token) = HttpResponse st hs d -> ok_status st = true ->
    read_sub d = Ok p -> prop_read_truthy p = true -> prop_read_template p = Ok u ->
    http (log ++ [EHttp (userinfo_request token)])%list
         (posts_request token ("urn:li:person:" ++ u) text)
      = HttpResponse st2 hs2 d2 ->
    ok_status st2 = true ->
    snd (publishToLinkedIn http token text log) =
      (log ++ [EHttp (userinfo_request token);
               EHttp (posts_request token ("urn:li:person:" ++ u) text)])%list /\
    exists r, fst (publishToLinkedIn http token text log) = LOk r /\
      pr_success r = true /\ pr_error r = None /\
      (forall id, pr_postId r = Some id <-> assoc_str "x-restli-id" hs2 = Some id /\ id <> "") /\
      pr_postUrl r = option_map (fun id => LINKEDIN_FEED_URL ++ encodeURIComponent id) (pr_postId r).
Proof.
  intros http token text log st hs d p u st2 hs2 d2 H1 S1 Hp Ht Hu H2 S2.
  rewrite publishToLinkedIn_eq, getLinkedInUserUrn_eq, H1, S1, Hp, Ht, Hu.
  cbv beta iota zeta. rewrite H2, S2.
  split; [rewrite <- List.app_assoc; reflexivity|].
  eexists; split; [reflexivity|]. cbn [pr_success pr_error pr_postId pr_postUrl].
  split; [reflexivity|]. split; [reflexivity|].
  destruct (assoc_str "x-restli-id" hs2) as [q|]; cbn [str_truthy].
  - destruct (String.eqb q "") eqn:E; cbn [negb option_map].
    + apply String.eqb_eq in E. subst q. split; [|reflexivity].
      intros id; split; [discriminate|]. intros [Hq Hne]. injection Hq as <-. contradiction.
    + split; [|reflexivity]. intros id; split.
      * intros Hq. injection Hq as <-. split; [reflexivity|]. intros ->. discriminate.
      * intros [Hq _]. exact Hq.
  - split; [|reflexivity]. intros id; split; [discriminate|]. intros [Hq _]. discriminate.
Qed.

Lemma userinfo_failure_no_post_witness :
  publishToLinkedIn (linkedin_server 403 201) "tok" "hi" [] =
    (LOk (mkPublishResult false None None
            (Some (JStr "Failed to get LinkedIn user info: Request failed with status code 403"))),
     [EHttp (userinfo_request "tok")]).
Proof.
  exact (userinfo_failure_no_post (linkedin_server 403 201) "tok" "hi" [] 403%Z []
           (JObj [("sub", JStr "abc123")]) ltac:(vm_compute; reflexivity) eq_refl).
Defined.

Lemma unauthorized_on_either_call_witness :
  fst (publishToLinkedIn (linkedin_server 200 401) "tok" "hi" []) =
    LOk (mkPublishResult false None None
           (Some (JStr "LinkedIn access token is invalid or expired. Please sign in again."))).
Proof.
  apply (unauthorized_on_either_call (linkedin_server 200 401) "tok" "hi" [] 200%Z
           [] (JObj [("sub", JStr "abc123")]) (OwnProp (Some (JStr "abc123"))) "abc123"
           [("x-restli-id", "urn:li:share:7000")] (JObj [("message", JStr "Duplicate post")])).
  right. split; [vm_compute; reflexivity|].
  split; [reflexivity|]. split; [reflexivity|]. split; [reflexivity|].
  split; [reflexivity|]. vm_compute. reflexivity.
Defined.

Lemma encodeURIComponent_injective_witness :
  "urn:li:share:7000" = "urn:li:share:7000".
Proof.
  exact (encodeURIComponent_injective "urn:li:share:7000" "urn:li:share:7000" eq_refl).
Defined.

Lemma publishToLinkedIn_success_witness :
  snd (publishToLinkedIn (linkedin_server 200 201) "tok" "hi" []) =
    [EHttp (userinfo_request "tok"); EHttp (posts_request "tok" "urn:li:person:abc123" "hi")] /\
  exists r, fst (publishToLinkedIn (linkedin_server 200 201) "tok" "hi" []) = LOk r /\
    pr_success r = true /\ pr_error r = None /\
    (forall id, pr_postId r = Some id <->
                assoc_str "x-restli-id" [("x-restli-id", "urn:li:share:7000")] = Some id /\ id <> "") /\
    pr_postUrl r = option_map (fun id => LINKEDIN_FEED_URL ++ encodeURIComponent id) (pr_postId r).
Proof.
  exact (publishToLinkedIn_success (linkedin_server 200 201) "tok" "hi" [] 200%Z []
           (JObj [("sub", JStr "abc123")]) (OwnProp (Some (JStr "abc123"))) "abc123" 201%Z
           [("x-restli-id", "urn:li:share:7000")] (JObj [("message", JStr "Duplicate post")])
           ltac:(vm_compute; reflexivity) eq_refl eq_refl eq_refl eq_refl
           ltac:(vm_compute; reflexivity) eq_refl).
Defined.

Lemma publishLinkedInPost_validation_witness :
  snd (publishLinkedInPost (linkedin_server 200 201) db_down linkedin_user
         (JObj [("post_text", JStr (repeat_str "ab" 1501)); ("linkedin_token", JStr "tok")]) []) = [] /\
  exists r, fst (publishLinkedInPost (linkedin_server 200 201) db_down linkedin_user
                   (JObj [("post_text", JStr (repeat_str "ab" 1501)); ("linkedin_token", JStr "tok")]) [])
              = LOk r /\ (status r = 400%Z \/ status r = 401%Z).
Proof.
  apply (publishLinkedInPost_validation (linkedin_server 200 201) db_down linkedin_user
           (JObj [("post_text", JStr (repeat_str "ab" 1501)); ("linkedin_token", JStr "tok")]) []).
  - discriminate.
  - right. right. right. exists (repeat_str "ab" 1501). split; [reflexivity|].
    apply Nat.ltb_lt. vm_compute. reflexivity.
Defined.

Lemma publishLinkedInPost_never_500_witness :
  exists r, fst (publishLinkedInPost (linkedin_server 200 201) db_down linkedin_user publish_body [])
              = LOk r /\ (status r = 200%Z \/ status r = 400%Z \/ status r = 401%Z).
Proof.
  exact (publishLinkedInPost_never_500 (linkedin_server 200 201) db_down linkedin_user publish_body []
           ltac:(discriminate)).
Defined.

Lemma publishLinkedInPost_db_calls_witness :
  exists suffix,
    snd (publishLinkedInPost (linkedin_server 200 201) db_down linkedin_user publish_body []) =
      ([] ++ suffix)%list /\
    db_calls suffix =
      [UpdatePostLinkedInMetadata (JNum 42 0) (JStr "user-1") "urn:li:share:7000"
         (LINKEDIN_FEED_URL ++ encodeURIComponent "urn:li:share:7000")].
Proof.
  destruct (publishLinkedInPost_db_calls (linkedin_server 200 201) db_down linkedin_user publish_body []
              (match fst (publishLinkedInPost (linkedin_server 200 201) db_down linkedin_user
                            publish_body []) with
               | LOk r => r | LErr _ => mkResponse 0 JNull end)
              (snd (publishLinkedInPost (linkedin_server 200 201) db_down linkedin_user publish_body []))
              ltac:(vm_compute; reflexivity)) as [suffix [H1 H2]].
  exists suffix. split; [exact H1|]. etransitivity; [exact H2|]. vm_compute. reflexivity.
Defined.

(** A 2xx userinfo answer whose [sub] is an object with an own [toString]
    key makes [`urn:li:person:${userInfo.sub}`] throw inside the [try] of
    [getLinkedInUserUrn]: [publishToLinkedIn] fails with the prefixed
    [TypeError] message and sends no post request. *)
Theorem publishToLinkedIn_sub_to_string_error :
  forall http token text log st hs d p,
    http log (userinfo_request token) = HttpResponse st hs d -> ok_status st = true ->
    read_sub d = Ok p -> prop_read_truthy p = true ->
    prop_read_template p = Err to_primitive_error ->
    publishToLinkedIn http token text log =
      (LOk (mkPublishResult false None None
              (Some (JStr "Failed to get LinkedIn user info: Cannot convert object to primitive value"))),
       (log ++ [EHttp (userinfo_request token)])%list).
Proof.
  intros http token text log st hs d p H1 S1 Hp Ht Hu.
  rewrite publishToLinkedIn_eq, getLinkedInUserUrn_eq, H1, S1, Hp, Ht, Hu.
  rewrite publish_error_plain by discriminate. reflexivity.
Qed.

Lemma publishToLinkedIn_sub_to_string_error_witness :
  publishToLinkedIn (fun _ _ => HttpResponse 200 [] (JObj [("sub", JObj [("toString", JNum 1 0)])]))
    "tok" "hi" [] =
    (LOk (mkPublishResult false None None
            (Some (JStr "Failed to get LinkedIn user info: Cannot convert object to primitive value"))),
     [EHttp (userinfo_request "tok")]).
Proof.
  exact (publishToLinkedIn_sub_to_string_error
           (fun _ _ => HttpResponse 200 [] (JObj [("sub", JObj [("toString", JNum 1 0)])]))
           "tok" "hi" [] 200%Z [] (JObj [("sub", JObj [("toString", JNum 1 0)])])
           (OwnProp (Some (JObj [("toString", JNum 1 0)])))
           eq_refl eq_refl eq_refl eq_refl eq_refl).
Defined.
